(** * Loopback-first: the authentication layer and the handlers it guards

    A shallow embedding of [src/authentication/jwt.ts] and
    [src/controllers/user.controller.ts] (user and product controllers),
    followed by the properties the specification states about them.

    Conventions.
    - A JavaScript value of dynamic type ([UserProfile], the [roles]
      attribute, the argument of [done]) is a [JsValue]; an object literal is
      an association list in insertion order.
    - A typed entity or request body (User, Product, Credentials) is a
      record; a property that may be absent is an [option].
    - An [async] function that may reject is a function into [Completion];
      a handler that also writes to a repository takes the repository and
      returns it next to its completion.
    - Wall-clock time is an explicit argument [now], in seconds. *)

From Stdlib Require Import ZArith List String Ascii Bool Lia DecimalString.
Import ListNotations.
Local Open Scope string_scope.
Local Open Scope Z_scope.

(** ** JavaScript values *)

(** Property keys: the [securityId] symbol of [@loopback/security], or a
    string. *)
Inductive PropKey : Type :=
| SecurityId
| Named (name : string).

Definition PropKey_eqb (a b : PropKey) : bool :=
  match a, b with
  | SecurityId, SecurityId => true
  | Named x, Named y => String.eqb x y
  | _, _ => false
  end.

#[local] Set Warnings "-register-all".
Inductive JsValue : Type :=
| VUndefined
| VNull
| VBool (b : bool)
| VNum (n : Z)
| VStr (s : string)
| VArr (items : list JsValue)
| VObj (props : list (PropKey * JsValue)).

(** Errors carry the [name] the [catch] of [verifyToken] inspects and the
    status code the REST layer answers with ([None]: not an HTTP error,
    answered with 500). *)
Record JsError : Type := mkError {
  errName : string;
  statusCode : option Z;
  message : string
}.

Module HttpErrors.
Definition BadRequest (msg : string) : JsError :=
  mkError "BadRequestError" (Some 400) msg.
Definition Unauthorized (msg : string) : JsError :=
  mkError "UnauthorizedError" (Some 401) msg.
Definition NotFound (msg : string) : JsError :=
  mkError "NotFoundError" (Some 404) msg.
Definition InternalServerError (msg : string) : JsError :=
  mkError "InternalServerError" (Some 500) msg.
End HttpErrors.

Definition TypeError (msg : string) : JsError := mkError "TypeError" None msg.

(** The completion of a call: a returned value or a thrown error (for an
    [async] function: a fulfilled or a rejected promise). *)
Inductive Completion (A : Type) : Type :=
| Return (a : A)
| Throw (e : JsError).
Arguments Return {A} a.
Arguments Throw {A} e.

Definition bind {A B : Type} (c : Completion A) (k : A -> Completion B)
  : Completion B :=
  match c with
  | Return a => k a
  | Throw e => Throw e
  end.

Notation "x <- c ;; k" := (bind c (fun x => k))
  (at level 61, c at next level, right associativity).

(** The status of the response: 200 for a handler that returns (the
    controllers' login, signup and whoAmI declare no other), the status
    of the error for one that throws. *)
Definition httpStatus {A : Type} (c : Completion A) : Z :=
  match c with
  | Return _ => 200
  | Throw e => match statusCode e with Some s => s | None => 500 end
  end.

(** [!v] is [negb (truthy v)]. *)
Definition truthy (v : JsValue) : bool :=
  match v with
  | VUndefined | VNull => false
  | VBool b => b
  | VNum n => negb (n =? 0)
  | VStr s => negb (String.eqb s "")
  | VArr _ | VObj _ => true
  end.

Fixpoint lookupProp (props : list (PropKey * JsValue)) (k : PropKey)
  : option JsValue :=
  match props with
  | [] => None
  | (k', v) :: rest => if PropKey_eqb k' k then Some v else lookupProp rest k
  end.

(** [o[k]]: a TypeError on [undefined] and [null], [undefined] where the
    property is absent. *)
Definition getProp (o : JsValue) (k : PropKey) : Completion JsValue :=
  match o with
  | VUndefined | VNull => Throw (TypeError "Cannot read properties")
  | VObj props =>
      Return (match lookupProp props k with Some v => v | None => VUndefined end)
  | _ => Return VUndefined
  end.

(** [o.hasOwnProperty(name)] for a name that is neither an index nor
    [length]. *)
Definition hasOwnProperty (o : JsValue) (name : string) : Completion bool :=
  match o with
  | VUndefined | VNull => Throw (TypeError "Cannot read properties")
  | VObj props =>
      Return (match lookupProp props (Named name) with
              | Some _ => true
              | None => false
              end)
  | _ => Return false
  end.

(** [s] without its prefix [p], when it starts with it. *)
Definition dropPrefix (p s : string) : option string :=
  if String.prefix p s
  then Some (String.substring (String.length p)
               (String.length s - String.length p) s)
  else None.

(** [s] cut at the first occurrence of [c]. *)
Fixpoint splitAt (c : ascii) (s : string) : option (string * string) :=
  match s with
  | EmptyString => None
  | String a rest =>
      if Ascii.eqb a c then Some (EmptyString, rest)
      else match splitAt c rest with
           | Some (x, y) => Some (String a x, y)
           | None => None
           end
  end.

(** [s.includes(t)] on strings: [t] occurs in [s]. *)
Fixpoint strIncludes (s t : string) : bool :=
  if String.prefix t s then true
  else match s with
       | EmptyString => false
       | String _ s' => strIncludes s' t
       end.

Definition strictEqStr (role : string) (v : JsValue) : bool :=
  match v with
  | VStr s => String.eqb s role
  | _ => false
  end.

(** [v.includes(role)] for a string [role]: an array searches its elements
    with strict equality, a string searches for a substring, anything else
    has no such method. *)
Definition includes (v : JsValue) (role : string) : Completion bool :=
  match v with
  | VArr items => Return (existsb (strictEqStr role) items)
  | VStr s => Return (strIncludes s role)
  | _ => Throw (TypeError "includes is not a function")
  end.

(** ** Endpoint metadata ([jwt.ts]) *)

Definition JWT_STRATEGY_NAME : string := "jwt".

Inductive SecuredType : Type :=
| IS_AUTHENTICATED
| PERMIT_ALL
| HAS_ANY_ROLE
| HAS_ROLES
| DENY_ALL.

Definition SecuredType_eqb (a b : SecuredType) : bool :=
  match a, b with
  | IS_AUTHENTICATED, IS_AUTHENTICATED
  | PERMIT_ALL, PERMIT_ALL
  | HAS_ANY_ROLE, HAS_ANY_ROLE
  | HAS_ROLES, HAS_ROLES
  | DENY_ALL, DENY_ALL => true
  | _, _ => false
  end.

Record MyAuthenticationMetadata : Type := mkMetadata {
  type : SecuredType;
  roles : list string;
  strategy : string;
  options : option JsValue
}.

(** [secured(type = IS_AUTHENTICATED, roles = [], strategy = 'jwt', options?)]:
    an omitted argument is [None] and takes its default. *)
Definition secured (type : option SecuredType) (roles : option (list string))
    (strategy : option string) (options : option JsValue)
  : MyAuthenticationMetadata :=
  mkMetadata
    (match type with Some t => t | None => IS_AUTHENTICATED end)
    (match roles with Some r => r | None => [] end)
    (match strategy with Some s => s | None => "jwt" end)
    options.

Definition JWT_SECRET : string := "testjwt".

(** ** Entities *)

Module User.
(** Modelled from the spec: the User model ([models/user.model.ts]) is not
    part of the source tree; its fields are the ones the sources read
    ([id], [username], [email], [password], [phone], [photoUrl]), with
    [password] holding the stored hash. *)
Record t : Type := mk {
  id : option Z;
  username : option string;
  email : string;
  password : option string;
  phone : option string;
  photoUrl : option string
}.

Definition setPassword (u : t) (p : option string) : t :=
  mk (id u) (username u) (email u) p (phone u) (photoUrl u).

Definition setId (u : t) (i : option Z) : t :=
  mk i (username u) (email u) (password u) (phone u) (photoUrl u).
End User.

Module Product.
(** The Product model: [id?], [name], [image?], [price], [user_id].  A
    [user_id] that is not a number ([undefined], [NaN]) is [None]. *)
Record t : Type := mk {
  id : option Z;
  name : string;
  image : option string;
  price : Z;
  user_id : option Z
}.
End Product.

Module Credentials.
(** The body of a login request; a field the body lacks is [None]. *)
Record t : Type := mk {
  email : option string;
  password : option string
}.
End Credentials.

(** The decoded payload [verifyToken] receives: the object [login] signed,
    to which signing adds [iat] and [exp]. *)
Record TokenPayload : Type := mkPayload {
  payload_email : string;
  iat : Z;
  exp : Z
}.

Definition optStr (o : option string) : JsValue :=
  match o with Some s => VStr s | None => VUndefined end.

Definition optNum (o : option Z) : JsValue :=
  match o with Some n => VNum n | None => VUndefined end.

(** [!s] for an optional string property. *)
Definition falsyStr (o : option string) : bool :=
  match o with
  | Some s => String.eqb s ""
  | None => true
  end.

(** ** Repositories *)

Module UserRepository.
(** Modelled from the spec: the user repository ([repositories/]) is not
    part of the source tree.  It persists and queries User records by
    field: the records in insertion order, [findOne] the first match,
    [find] every match, [create] storing the record under a generated id
    when it has none. *)
Definition t : Type := list User.t.

Definition byEmail (email : string) (u : User.t) : bool :=
  String.eqb (User.email u) email.

Definition findOne (repo : t) (email : string)
  : Completion (option User.t) :=
  Return (List.find (byEmail email) repo).

Definition find (repo : t) (email : string) : Completion (list User.t) :=
  Return (List.filter (byEmail email) repo).

Definition nextId (repo : t) : Z :=
  1 + fold_right (fun u m => match User.id u with
                             | Some i => Z.max i m
                             | None => m
                             end) 0 repo.

Definition create (repo : t) (u : User.t) : Completion User.t * t :=
  let stored := match User.id u with
                | Some _ => u
                | None => User.setId u (Some (nextId repo))
                end in
  (Return stored, (repo ++ [stored])%list).
End UserRepository.

Module ProductRepository.
(** Modelled from the spec: the product repository ([repositories/]) is
    not part of the source tree.  [findById] rejects with a 404 when no
    record has the id; [updateById] overwrites the given fields of that
    record and [deleteById] removes it. *)
Definition t : Type := list Product.t.

Definition byId (id : Z) (p : Product.t) : bool :=
  match Product.id p with
  | Some i => i =? id
  | None => false
  end.

Definition EntityNotFound : JsError :=
  mkError "Error" (Some 404) "Entity not found".

Definition findById (repo : t) (id : Z) : Completion Product.t :=
  match List.find (byId id) repo with
  | Some p => Return p
  | None => Throw EntityNotFound
  end.

Definition patch (name : option string) (price : option Z) (p : Product.t)
  : Product.t :=
  Product.mk (Product.id p)
    (match name with Some n => n | None => Product.name p end)
    (Product.image p)
    (match price with Some x => x | None => Product.price p end)
    (Product.user_id p).

Definition updateById (repo : t) (id : Z) (name : option string)
    (price : option Z) : Completion unit * t :=
  match List.find (byId id) repo with
  | Some _ =>
      (Return tt,
       List.map (fun p => if byId id p then patch name price p else p) repo)
  | None => (Throw EntityNotFound, repo)
  end.

Definition deleteById (repo : t) (id : Z) : Completion unit * t :=
  match List.find (byId id) repo with
  | Some _ => (Return tt, List.filter (fun p => negb (byId id p)) repo)
  | None => (Throw EntityNotFound, repo)
  end.
End ProductRepository.

Module ProductWrites.
(** Modelled from the spec: the remaining operations of the product
    repository the controller calls.  [create] stores the record under a
    generated id, [replaceById] overwrites the whole record that has the
    id, keeping the id, and rejects with a 404 when there is none,
    [findByName] is [find] with a [where] on the name. *)
Definition nextId (repo : ProductRepository.t) : Z :=
  1 + fold_right (fun p m => match Product.id p with
                             | Some i => Z.max i m
                             | None => m
                             end) 0 repo.

Definition withId (p : Product.t) (i : option Z) : Product.t :=
  Product.mk i (Product.name p) (Product.image p) (Product.price p)
    (Product.user_id p).

Definition create (repo : ProductRepository.t) (p : Product.t)
  : Completion Product.t * ProductRepository.t :=
  let stored := match Product.id p with
                | Some _ => p
                | None => withId p (Some (nextId repo))
                end in
  (Return stored, (repo ++ [stored])%list).

Definition replaceById (repo : ProductRepository.t) (id : Z) (data : Product.t)
  : Completion unit * ProductRepository.t :=
  match List.find (ProductRepository.byId id) repo with
  | Some _ =>
      (Return tt,
       List.map (fun p => if ProductRepository.byId id p
                          then withId data (Some id) else p) repo)
  | None => (Throw ProductRepository.EntityNotFound, repo)
  end.

Definition findByName (repo : ProductRepository.t) (name : string)
  : Completion (list Product.t) :=
  Return (List.filter (fun p => String.eqb (Product.name p) name) repo).
End ProductWrites.

(** ** The strategy provider ([jwt.ts]) *)

(** One invocation [done(err, user)] of the passport callback; [user] is a
    profile object or [false]. *)
Record DoneCall : Type := done {
  err : option JsError;
  user : JsValue
}.

Record MyAuthAuthenticationStrategyProvider : Type := mkProvider {
  metadata : option MyAuthenticationMetadata;
  userRepository : UserRepository.t
}.

(** The object literal [userInfo] of [verifyToken], with [roles] bound to
    the empty object (the role lookup is commented out). *)
Definition userInfo (user : User.t) : JsValue :=
  let roles := VObj [] in
  VObj [ (SecurityId, optNum (User.id user));
         (Named "username", optStr (User.username user));
         (Named "email", VStr (User.email user));
         (Named "roles", roles);
         (Named "phone", optStr (User.phone user));
         (Named "photoUrl", optStr (User.photoUrl user)) ].

(** [verifyToken(payload, done)]: the calls made to [done], the first one
    apart.  The [catch] calls [done] twice for an [UnauthorizedError], there
    being no [return] between the two statements.  ([console.log] is
    omitted.) *)
Definition verifyToken (this : MyAuthAuthenticationStrategyProvider)
    (payload : TokenPayload) : DoneCall * list DoneCall :=
  let email := payload_email payload in
  match UserRepository.findOne (userRepository this) email with
  | Return None => (done None (VBool false), [])
  | Return (Some user) => (done None (userInfo user), [])
  | Throw e =>
      if String.eqb (errName e) "UnauthorizedError"
      then (done None (VBool false), [done (Some e) (VBool false)])
      else (done (Some e) (VBool false), [])
  end.

(** The loop of the [HAS_ANY_ROLE] branch: [true] when it returns from
    [verifyRoles], [false] when it runs to its end. *)
Fixpoint anyRoleLoop (userData : JsValue) (roles : list string)
  : Completion bool :=
  match roles with
  | [] => Return false
  | role :: rest =>
      r <- getProp userData (Named "roles") ;;
      p <- getProp r (Named "permissions") ;;
      b <- includes p role ;;
      if b then Return true else anyRoleLoop userData rest
  end.

(** The loop of the [HAS_ROLES] branch: the final value of [valid]. *)
Fixpoint allRolesLoop (roleIds : JsValue) (roles : list string)
  : Completion bool :=
  match roles with
  | [] => Return true
  | role :: rest =>
      b <- includes roleIds role ;;
      if negb b then Return false else allRolesLoop roleIds rest
  end.

Definition isEmpty {A : Type} (l : list A) : bool :=
  match l with [] => true | _ => false end.

Definition InvalidAuthorization : JsError :=
  HttpErrors.Unauthorized "Invalid authorization".

(** [verifyRoles(userData)]: returns, or throws [Unauthorized]. *)
Definition verifyRoles (this : MyAuthAuthenticationStrategyProvider)
    (userData : JsValue) : Completion unit :=
  match metadata this with
  | None => Throw (TypeError "Cannot destructure")
  | Some md =>
      let type := type md in
      let roles := roles md in
      if existsb (SecuredType_eqb type) [IS_AUTHENTICATED; PERMIT_ALL]
      then Return tt
      else if SecuredType_eqb type HAS_ANY_ROLE then
        bad <- (if isEmpty roles then Return true
                else r <- getProp userData (Named "roles") ;;
                     h <- hasOwnProperty r "permissions" ;;
                     Return (negb h)) ;;
        if bad : bool then Throw InvalidAuthorization
        else
          found <- anyRoleLoop userData roles ;;
          if found : bool then Return tt else Throw InvalidAuthorization
      else if SecuredType_eqb type HAS_ROLES && negb (isEmpty roles) then
        bad <- (if isEmpty roles then Return true
                else r <- getProp userData (Named "roles") ;;
                     h <- hasOwnProperty r "permissions" ;;
                     Return (negb h)) ;;
        if bad : bool then Throw InvalidAuthorization
        else
          r <- getProp userData (Named "roles") ;;
          roleIds <- getProp r (Named "permissions") ;;
          valid <- allRolesLoop roleIds roles ;;
          if valid : bool then Return tt else Throw InvalidAuthorization
      else Throw InvalidAuthorization
  end.

(** ** The authentication action ([jwt.ts]) *)

(** What the action reads of a request: the [Authorization] header and the
    query parameters. *)
Record Request : Type := mkRequest {
  authorization : option string;
  query : list (string * string)
}.

Record AuthenticationStrategy : Type := mkStrategy {
  name : string;
  authenticate : Request -> Completion JsValue
}.

(** The calls the action makes on its injected collaborators. *)
Inductive AuthCall : Type :=
| GetMetadata
| GetStrategy
| Authenticate (request : Request)
| SetCurrentUser (user : JsValue).

(** The request context the action works in: the binding
    [AuthenticationBindings.CURRENT_USER] and the calls made so far. *)
Record AuthContext : Type := mkContext {
  currentUser : option JsValue;
  calls : list AuthCall
}.

Definition called (c : AuthCall) (ctx : AuthContext) : AuthContext :=
  mkContext (currentUser ctx) (calls ctx ++ [c])%list.

Definition setCurrentUser (user : JsValue) (ctx : AuthContext) : AuthContext :=
  mkContext (Some user) (calls ctx ++ [SetCurrentUser user])%list.

Record MyAuthActionProvider : Type := mkAction {
  getStrategy : option AuthenticationStrategy;
  getMetadata : option MyAuthenticationMetadata
}.

(** [action(request)]: the value the promise settles with ([VUndefined] for
    a bare [return]) and the context it leaves. *)
Definition action (this : MyAuthActionProvider) (request : Request)
    (ctx : AuthContext) : Completion JsValue * AuthContext :=
  let ctx := called GetMetadata ctx in
  let permitAll := match getMetadata this with
                   | Some metadata => SecuredType_eqb (type metadata) PERMIT_ALL
                   | None => false
                   end in
  if permitAll then (Return VUndefined, ctx)
  else
    let ctx := called GetStrategy ctx in
    match getStrategy this with
    | None => (Return VUndefined, ctx)
    | Some strategy =>
        let ctx := called (Authenticate request) ctx in
        match authenticate strategy request with
        | Throw e => (Throw e, ctx)
        | Return user =>
            if negb (truthy user) then (Return VUndefined, ctx)
            else (Return user, setCurrentUser user ctx)
        end
    end.

(** ** Reference collaborators

    Executable stand-ins for the third-party functions the sources call
    (the token serialisation of [jsonwebtoken], [bcryptjs], [parseInt]).
    The development is stated for arbitrary such functions; these serve to
    evaluate it on concrete requests. *)

Module Reference.
Definition showZ (z : Z) : string := NilZero.string_of_int (Z.to_int z).

Definition readZ (s : string) : option Z :=
  option_map Z.of_int (NilZero.int_of_string s).

(** A token in the clear: [iat.exp.secret.email]. *)
Definition encode (secret : string) (p : TokenPayload) : string :=
  showZ (iat p) ++ "." ++ showZ (exp p) ++ "." ++ secret ++ "."
    ++ payload_email p.

Definition decode (secret : string) (token : string) : option TokenPayload :=
  match splitAt "." token with
  | None => None
  | Some (a, r1) =>
      match splitAt "." r1 with
      | None => None
      | Some (b, r2) =>
          match readZ a, readZ b, dropPrefix (secret ++ ".") r2 with
          | Some i, Some e, Some email => Some (mkPayload email i e)
          | _, _, _ => None
          end
      end
  end.

(** A hash in the clear: [salt$password]. *)
Definition hash (s salt : string) : string := salt ++ "$" ++ s.

Definition compare (s h : string) : bool :=
  match splitAt "$" h with
  | Some (_, rest) => String.eqb rest s
  | None => false
  end.

(** [parseInt] on numbers and on strings of decimal digits. *)
Definition parseInt (v : JsValue) : option Z :=
  match v with
  | VNum n => Some n
  | VStr s => readZ s
  | _ => None
  end.
End Reference.

(** Sample data the statements are evaluated on. *)
Module Sample.
Definition alice : User.t :=
  User.mk (Some 1) (Some "alice") "a@b.com"
    (Some (Reference.hash "12345678" "salt")) (Some "555") None.

Definition users : UserRepository.t := [alice].

Definition newcomer (password : option string) : User.t :=
  User.mk None (Some "bob") "bob@b.com" password None None.

Definition claim : TokenPayload := mkPayload "a@b.com" 1000 4600.

Definition token : string := Reference.encode "testjwt" claim.

Definition request : Request :=
  mkRequest (Some ("Bearer " ++ token)) [("access_token", "other")].

Definition emptyContext : AuthContext := mkContext None [].

Definition pen : Product.t := Product.mk (Some 7) "pen" None 3 (Some 1).

Definition products : ProductRepository.t := [pen].

(** The identity of a caller with id 2. *)
Definition stranger : JsValue := VObj [(SecurityId, VNum 2)].

(** The user a signup of [newcomer] with password [12345678] and salt
    [salt] stores next to [alice]. *)
Definition bob : User.t :=
  User.mk (Some 2) (Some "bob") "bob@b.com" (Some "salt$12345678") None None.

Definition denyAll : MyAuthenticationMetadata :=
  mkMetadata DENY_ALL ["admin"] "jwt" None.

(** A product without an owner, and a body naming the owner 2. *)
Definition ghost : Product.t := Product.mk (Some 8) "ghost" None 1 None.

Definition ink : Product.t := Product.mk None "ink" None 5 (Some 2).
End Sample.

Section Backend.

(** The collaborators from outside the repository, taken as given: the
    serialisation of a payload under a secret and its inverse
    ([jsonwebtoken]; [None] for a token that is malformed or whose
    signature does not verify), the salted hash and its comparison
    ([bcryptjs]), and [parseInt] ([None] for [NaN]). *)
Variable jwt_encode : string -> TokenPayload -> string.
Variable jwt_decode : string -> string -> option TokenPayload.
Variable bcrypt_hash : string -> string -> string.
Variable bcrypt_compare : string -> string -> bool.
Variable parseInt : JsValue -> option Z.

(** *** Token codec *)

Inductive ParseOutcome : Type :=
| Claim (payload : TokenPayload)
| Expired
| Invalid.

(** Modelled from the spec: [issue(claim, ttlSeconds)], which the sources
    call as [sign(payload, secret, {expiresIn})] of [jsonwebtoken]: the
    claim is stamped with the time of issue and the time of expiry and
    signed with the secret. *)
Definition sign (email : string) (secret : string) (expiresIn : Z)
    (now : Z) : string :=
  jwt_encode secret (mkPayload email now (now + expiresIn)).

(** Modelled from the spec: [parse(token)], which checks the signature
    and the structure of the token and that [now < expiresAt], each
    failure being an outcome of its own. *)
Definition verify (token : string) (secret : string) (now : Z)
  : ParseOutcome :=
  match jwt_decode secret token with
  | None => Invalid
  | Some payload => if now <? exp payload then Claim payload else Expired
  end.

(** *** Token extraction *)

Definition Extractor : Type := Request -> option string.

(** Modelled from the spec: the token of an [Authorization: Bearer <token>]
    header ([ExtractJwt.fromAuthHeaderAsBearerToken] of [passport-jwt]). *)
Definition fromAuthHeaderAsBearerToken : Extractor :=
  fun request =>
    match authorization request with
    | Some header => dropPrefix "Bearer " header
    | None => None
    end.

Fixpoint queryParameter (q : list (string * string)) (param : string)
  : option string :=
  match q with
  | [] => None
  | (k, v) :: rest =>
      if String.eqb k param then Some v else queryParameter rest param
  end.

(** Modelled from the spec: the token of a query parameter
    ([ExtractJwt.fromUrlQueryParameter]). *)
Definition fromUrlQueryParameter (param : string) : Extractor :=
  fun request => queryParameter (query request) param.

(** Modelled from the spec: the extractors are tried in order and the
    first that yields a non-empty token wins
    ([ExtractJwt.fromExtractors]). *)
Fixpoint fromExtractors (extractors : list Extractor) : Extractor :=
  fun request =>
    match extractors with
    | [] => None
    | extractor :: rest =>
        match extractor request with
        | Some token =>
            if String.eqb token "" then fromExtractors rest request
            else Some token
        | None => fromExtractors rest request
        end
    end.

(** *** The JWT strategy *)

Record StrategyOptions : Type := mkOptions {
  secretOrKey : string;
  jwtFromRequest : Extractor
}.

Inductive Verdict : Type :=
| Success (user : JsValue)
| Fail
| Error (e : JsError).

(** Modelled from the spec: what the strategy of [passport-jwt] does with
    the extracted token.  It parses it under the secret and hands the
    claim to the verify callback, whose first call to [done] decides; an
    invalid or expired token fails the authentication. *)
Definition checkToken (opts : StrategyOptions)
    (verifyCallback : TokenPayload -> DoneCall * list DoneCall)
    (now : Z) (token : string) : Verdict :=
  match verify token (secretOrKey opts) now with
  | Claim payload =>
      let first := fst (verifyCallback payload) in
      match err first with
      | Some e => Error e
      | None => if truthy (user first) then Success (user first) else Fail
      end
  | Expired | Invalid => Fail
  end.

(** Modelled from the spec: the strategy of [passport-jwt]: a request
    from which no token is extracted fails the authentication, any other
    is decided by its token. *)
Definition JwtStrategy (opts : StrategyOptions)
    (verifyCallback : TokenPayload -> DoneCall * list DoneCall)
    (now : Z) (request : Request) : Verdict :=
  match jwtFromRequest opts request with
  | None => Fail
  | Some token =>
      if String.eqb token "" then Fail
      else checkToken opts verifyCallback now token
  end.

(** Modelled from the spec: the adapter of
    [@loopback/authentication-passport]; every authentication failure
    surfaces as an [Unauthorized] error. *)
Definition StrategyAdapter (run : Request -> Verdict) (name : string)
  : AuthenticationStrategy :=
  mkStrategy name
    (fun request =>
       match run request with
       | Success user => Return user
       | Fail => Throw (HttpErrors.Unauthorized "Unauthorized")
       | Error e => Throw (HttpErrors.InternalServerError (message e))
       end).

(** The options literal handed to [new JwtStrategy] by [value()]. *)
Definition jwtOptions : StrategyOptions :=
  mkOptions JWT_SECRET
    (fromExtractors [ fromAuthHeaderAsBearerToken;
                      fromUrlQueryParameter "access_token" ]).

(** [MyAuthAuthenticationStrategyProvider.value()], at time [now]. *)
Definition value (this : MyAuthAuthenticationStrategyProvider) (now : Z)
  : option AuthenticationStrategy :=
  match metadata this with
  | None => None
  | Some md =>
      if String.eqb (strategy md) JWT_STRATEGY_NAME
      then Some (StrategyAdapter
                   (JwtStrategy jwtOptions (verifyToken this) now)
                   JWT_STRATEGY_NAME)
      else None
  end.

(** *** The user controller ([user.controller.ts]) *)

(** The endpoints of the two controllers and the metadata their
    decorators attach ([MyAuthMetadataProvider.value()]): [@secured()]
    stands on [whoAmI], [create] and [updateById] only. *)
Inductive Endpoint : Type :=
| UserLogin | UserWhoAmI | UserCreateUser
| ProductCreate | ProductCount | ProductFind | ProductUpdateAll
| ProductFindOne | ProductFindById | ProductUpdateById
| ProductReplaceById | ProductDeleteById.

Definition methodMetadata (e : Endpoint) : option MyAuthenticationMetadata :=
  match e with
  | UserWhoAmI | ProductCreate | ProductUpdateById =>
      Some (secured None None None None)
  | _ => None
  end.

(** [bcrypt.compare(s, hash)]: rejects when the hash is not a string. *)
Definition bcryptCompare (s : string) (hash : option string)
  : Completion bool :=
  match hash with
  | Some h => Return (bcrypt_compare s h)
  | None => Throw (mkError "Error" None "Illegal arguments")
  end.

(** [UserController.login(credentials)], at time [now]. *)
Definition login (userRepository : UserRepository.t) (now : Z)
    (credentials : Credentials.t) : Completion string :=
  match Credentials.email credentials, Credentials.password credentials with
  | Some email, Some password =>
      if String.eqb email "" || String.eqb password ""
      then Throw (HttpErrors.BadRequest "Missing Email or Password")
      else
        found <- UserRepository.findOne userRepository email ;;
        match found with
        | None => Throw (HttpErrors.Unauthorized "Invalid credentials")
        | Some user =>
            isPasswordMatched <- bcryptCompare password (User.password user) ;;
            if negb isPasswordMatched
            then Throw (HttpErrors.Unauthorized "Invalid credentials")
            else Return (sign email "testjwt" (60 * 60) now)
        end
  | _, _ => Throw (HttpErrors.BadRequest "Missing Email or Password")
  end.

(** [UserController.whoAmI(currentUserProfile)]. *)
Definition whoAmI (currentUserProfile : JsValue) : Completion JsValue :=
  getProp currentUserProfile SecurityId.

(** [UserController.createUser(user)], with [salt] the salt [genSalt()]
    draws. *)
Definition createUser (salt : string) (user : User.t)
    (userRepository : UserRepository.t)
  : Completion User.t * UserRepository.t :=
  match UserRepository.find userRepository (User.email user) with
  | Throw e => (Throw e, userRepository)
  | Return findUser =>
      if (1 <=? List.length findUser)%nat
      then (Throw (HttpErrors.BadRequest "Email already exist."),
            userRepository)
      else if falsyStr (User.password user)
      then (Throw (HttpErrors.BadRequest "User Must Have Password."),
            userRepository)
      else
        match User.password user with
        | None => (Throw (TypeError "Illegal arguments"), userRepository)
        | Some plain =>
            let password := bcrypt_hash plain salt in
            let user := User.setPassword user (Some password) in
            UserRepository.create userRepository user
        end
  end.

(** *** The product controller ([user.controller.ts]) *)

(** [a != b] on numbers, [None] being a value that is not a number
    ([undefined], [NaN]), which differs from everything. *)
Definition looseNeq (a b : option Z) : bool :=
  match a, b with
  | Some x, Some y => negb (x =? y)
  | _, _ => true
  end.

(** [ProductController.updateById(currentUserProfile, id, product)]; of
    the body only [name] and [price] are read. *)
Definition updateById (currentUserProfile : JsValue) (id : Z)
    (name : option string) (price : option Z)
    (productRepository : ProductRepository.t)
  : Completion unit * ProductRepository.t :=
  match ProductRepository.findById productRepository id with
  | Throw e => (Throw e, productRepository)
  | Return oldProduct =>
      match getProp currentUserProfile SecurityId with
      | Throw e => (Throw e, productRepository)
      | Return sid =>
          if looseNeq (Product.user_id oldProduct) (parseInt sid)
          then (Throw (HttpErrors.Unauthorized "Invalid authorization"),
                productRepository)
          else ProductRepository.updateById productRepository id name price
      end
  end.

(** [ProductController.deleteById(currentUserProfile, id)]. *)
Definition deleteById (currentUserProfile : JsValue) (id : Z)
    (productRepository : ProductRepository.t)
  : Completion unit * ProductRepository.t :=
  match ProductRepository.findById productRepository id with
  | Throw e => (Throw e, productRepository)
  | Return oldProduct =>
      match getProp currentUserProfile SecurityId with
      | Throw e => (Throw e, productRepository)
      | Return sid =>
          if looseNeq (Product.user_id oldProduct) (parseInt sid)
          then (Throw (HttpErrors.Unauthorized "Invalid authorization"),
                productRepository)
          else ProductRepository.deleteById productRepository id
      end
  end.


(** [ProductController.create(currentUserProfile, product)]: the body has
    no [id]; its [user_id] is overwritten with the caller's. *)
Definition create (currentUserProfile : JsValue) (product : Product.t)
    (productRepository : ProductRepository.t)
  : Completion Product.t * ProductRepository.t :=
  match getProp currentUserProfile SecurityId with
  | Throw e => (Throw e, productRepository)
  | Return sid =>
      let product :=
        Product.mk None (Product.name product) (Product.image product)
          (Product.price product) (parseInt sid) in
      ProductWrites.create productRepository product
  end.

(** [ProductController.findOne(name)]. *)
Definition findOne (name : string) (productRepository : ProductRepository.t)
  : Completion (list Product.t) :=
  ProductWrites.findByName productRepository name.

(** [ProductController.findById(id)]. *)
Definition findById (id : Z) (productRepository : ProductRepository.t)
  : Completion Product.t :=
  ProductRepository.findById productRepository id.

(** [ProductController.replaceById(id, product)]. *)
Definition replaceById (id : Z) (product : Product.t)
    (productRepository : ProductRepository.t)
  : Completion unit * ProductRepository.t :=
  ProductWrites.replaceById productRepository id product.

(** What [verifyToken] does once the lookup has settled: the body of its
    [try] after the [await], and its [catch]. *)
Definition verifyTokenAfter (found : Completion (option User.t))
  : DoneCall * list DoneCall :=
  match found with
  | Return None => (done None (VBool false), [])
  | Return (Some user) => (done None (userInfo user), [])
  | Throw e =>
      if String.eqb (errName e) "UnauthorizedError"
      then (done None (VBool false), [done (Some e) (VBool false)])
      else (done (Some e) (VBool false), [])
  end.

(** [createUser] with its two accesses to the repository apart: the
    handler awaits [genSalt] and [hash] between the [find] and the
    [create], so the repository it writes to ([current]) need not be the
    one its lookup saw ([seen]). *)
Definition createUserAcross (salt : string) (user : User.t)
    (seen current : UserRepository.t)
  : Completion User.t * UserRepository.t :=
  match UserRepository.find seen (User.email user) with
  | Throw e => (Throw e, current)
  | Return findUser =>
      if (1 <=? List.length findUser)%nat
      then (Throw (HttpErrors.BadRequest "Email already exist."), current)
      else if falsyStr (User.password user)
      then (Throw (HttpErrors.BadRequest "User Must Have Password."), current)
      else
        match User.password user with
        | None => (Throw (TypeError "Illegal arguments"), current)
        | Some plain =>
            let password := bcrypt_hash plain salt in
            let user := User.setPassword user (Some password) in
            UserRepository.create current user
        end
  end.

(** *** Derived notions used in the statements *)

(** The authentication succeeded: the first call is [done(null, user)]
    with a user. *)
Definition succeeded (r : DoneCall * list DoneCall) : bool :=
  match err (fst r) with
  | None => truthy (user (fst r))
  | Some _ => false
  end.

(** An identity holding the given roles, in the shape [verifyRoles]
    reads: [{roles: {permissions: [...]}}]. *)
Definition identityWithRoles (held : list string) : JsValue :=
  VObj [ (Named "roles",
          VObj [ (Named "permissions", VArr (List.map VStr held)) ]) ].

(** What [verifyRoles] reads of an identity in its [HAS_ROLES] branch: the
    value of [roles.permissions], when [roles] owns that property. *)
Definition heldRoles (userData roleIds : JsValue) : Prop :=
  exists r,
    getProp userData (Named "roles") = Return r
    /\ hasOwnProperty r "permissions" = Return true
    /\ getProp r (Named "permissions") = Return roleIds.

Definition ownKeys (v : JsValue) : list PropKey :=
  match v with
  | VObj props => List.map fst props
  | _ => []
  end.

(** Every stored user has a password hash. *)
Definition allHashed (repo : UserRepository.t) : Prop :=
  Forall (fun u => User.password u <> None) repo.

(** No two stored users share an email. *)
Definition uniqueEmails (repo : UserRepository.t) : Prop :=
  NoDup (List.map User.email repo).

(** *** Identity resolution *)

Lemma findOne_total (repo : UserRepository.t) (email : string) :
  UserRepository.findOne repo email
  = Return (List.find (UserRepository.byEmail email) repo).
Proof. reflexivity. Qed.

Lemma userInfo_truthy (u : User.t) : truthy (userInfo u) = true.
Proof. reflexivity. Qed.

Lemma verifyToken_found this payload u :
  List.find (UserRepository.byEmail (payload_email payload))
    (userRepository this) = Some u ->
  verifyToken this payload = (done None (userInfo u), []).
Proof.
  intros Hfind. unfold verifyToken. rewrite findOne_total, Hfind.
  reflexivity.
Qed.

Lemma verifyToken_missing this payload :
  List.find (UserRepository.byEmail (payload_email payload))
    (userRepository this) = None ->
  verifyToken this payload = (done None (VBool false), []).
Proof.
  intros Hfind. unfold verifyToken. rewrite findOne_total, Hfind.
  reflexivity.
Qed.

(** C1. The outcome of [verifyToken] is the same under any two metadata
    values: it succeeds exactly when the email of the payload resolves to
    a stored user, the [roles] of the identity it yields is the empty
    object, and the strategy built on it authenticates every request
    alike whatever the declared type and roles. *)
Theorem verifyToken_ignores_metadata :
  forall (md1 md2 : option MyAuthenticationMetadata)
         (repo : UserRepository.t) (payload : TokenPayload),
    let r1 := verifyToken (mkProvider md1 repo) payload in
    let r2 := verifyToken (mkProvider md2 repo) payload in
    r1 = r2
    /\ (succeeded r1 = true <->
        exists u, List.find (UserRepository.byEmail (payload_email payload))
                    repo = Some u)
    /\ (succeeded r1 = true ->
        getProp (user (fst r1)) (Named "roles") = Return (VObj []))
    /\ (forall t1 roles1 t2 roles2 strat opts now request,
           option_map (fun s => authenticate s request)
             (value (mkProvider (Some (mkMetadata t1 roles1 strat opts)) repo)
                now)
           = option_map (fun s => authenticate s request)
               (value (mkProvider (Some (mkMetadata t2 roles2 strat opts)) repo)
                  now)).
Proof.
  intros md1 md2 repo payload r1 r2.
  assert (E : r1 = r2) by reflexivity.
  split; [exact E|].
  subst r1 r2.
  destruct (List.find (UserRepository.byEmail (payload_email payload)) repo)
    as [u|] eqn:Hfind.
  - rewrite (verifyToken_found (mkProvider md1 repo) payload u Hfind).
    split; [split; [intros _; now exists u | reflexivity]|].
    split; [reflexivity|].
    intros; unfold value; cbn [metadata strategy].
    destruct (String.eqb strat JWT_STRATEGY_NAME); reflexivity.
  - rewrite (verifyToken_missing (mkProvider md1 repo) payload Hfind).
    split; [split; [discriminate | intros [u Hu]; discriminate]|].
    split; [discriminate|].
    intros; unfold value; cbn [metadata strategy].
    destruct (String.eqb strat JWT_STRATEGY_NAME); reflexivity.
Qed.

(** *** The role check *)

Lemma allRolesLoop_true (roleIds : JsValue) (required : list string) :
  allRolesLoop roleIds required = Return true
  <-> Forall (fun role => includes roleIds role = Return true) required.
Proof.
  induction required as [|role rest IH]; cbn [allRolesLoop].
  - split; [constructor | reflexivity].
  - destruct (includes roleIds role) as [[|]|e] eqn:Hincl; cbn [bind negb].
    + rewrite IH. split.
      * intros Hrest. constructor; [exact Hincl | exact Hrest].
      * intros Hall. inversion Hall; assumption.
    + split; [discriminate|].
      intros Hall. inversion Hall as [|? ? Hhd _]. congruence.
    + split; [discriminate|].
      intros Hall. inversion Hall as [|? ? Hhd _]. congruence.
Qed.

Lemma includes_array_of_strings (held : list string) (role : string) :
  includes (VArr (List.map VStr held)) role = Return true <-> In role held.
Proof.
  cbn [includes]. split.
  - intros H. injection H as H.
    apply existsb_exists in H. destruct H as [v [Hin Heq]].
    apply in_map_iff in Hin. destruct Hin as [s [<- Hs]].
    cbn in Heq. apply String.eqb_eq in Heq. now subst.
  - intros Hin. f_equal. apply existsb_exists.
    exists (VStr role). split; [now apply in_map | apply String.eqb_refl].
Qed.

Lemma verifyRoles_HAS_ROLES_iff repo required strat opts userData :
  verifyRoles (mkProvider (Some (mkMetadata HAS_ROLES required strat opts))
                 repo) userData = Return tt
  <-> required <> []
      /\ exists roleIds,
           heldRoles userData roleIds
           /\ Forall (fun role => includes roleIds role = Return true)
                required.
Proof.
  unfold verifyRoles, heldRoles; cbn [metadata type roles existsb
    SecuredType_eqb orb andb].
  destruct required as [|role rest].
  - cbn. split; [discriminate | intros [H _]; now elim H].
  - cbn [isEmpty negb].
    destruct (getProp userData (Named "roles")) as [r|e] eqn:Hr;
      cbn [bind].
    2:{ split; [discriminate|].
        intros [_ [ids [[r [Hr' _]] _]]]. discriminate. }
    destruct (hasOwnProperty r "permissions") as [[|]|e] eqn:Hown;
      cbn [bind negb].
    + destruct (getProp r (Named "permissions")) as [ids|e] eqn:Hids;
        cbn [bind].
      * destruct (allRolesLoop ids (role :: rest)) as [[|]|e] eqn:Hloop;
          cbn [bind].
        -- split; [|reflexivity].
           intros _. split; [discriminate|].
           exists ids. split.
           ++ exists r. auto.
           ++ now apply allRolesLoop_true.
        -- split; [discriminate|].
           intros [_ [ids' [[r' [Hr' [_ Hids']]] Hall]]].
           injection Hr' as <-. rewrite Hids in Hids'. injection Hids' as <-.
           apply allRolesLoop_true in Hall. congruence.
        -- split; [discriminate|].
           intros [_ [ids' [[r' [Hr' [_ Hids']]] Hall]]].
           injection Hr' as <-. rewrite Hids in Hids'. injection Hids' as <-.
           apply allRolesLoop_true in Hall. congruence.
      * split; [discriminate|].
        intros [_ [ids' [[r' [Hr' [_ Hids']]] _]]].
        injection Hr' as <-. congruence.
    + split; [discriminate|].
      intros [_ [ids' [[r' [Hr' [Hown' _]]] _]]].
      injection Hr' as <-. congruence.
    + split; [discriminate|].
      intros [_ [ids' [[r' [Hr' [Hown' _]]] _]]].
      injection Hr' as <-. congruence.
Qed.

(** C2 (amended). A [HAS_ROLES] requirement lets an identity through
    exactly when the required list is not empty, the identity's [roles]
    owns a [permissions] value and that value includes every required
    role; for an identity holding a list of roles this is: required is not
    empty and is contained in the held roles.  The identity [verifyToken]
    builds, whose [roles] is empty, is refused, and so is every identity
    under an empty required list. *)
Theorem verifyRoles_HAS_ROLES :
  forall (repo : UserRepository.t) (required : list string)
         (strat : string) (opts : option JsValue),
    let this :=
      mkProvider (Some (mkMetadata HAS_ROLES required strat opts)) repo in
    (forall userData,
        verifyRoles this userData = Return tt
        <-> required <> []
            /\ exists roleIds,
                 heldRoles userData roleIds
                 /\ Forall (fun role => includes roleIds role = Return true)
                      required)
    /\ (forall held,
           verifyRoles this (identityWithRoles held) = Return tt
           <-> required <> [] /\ incl required held)
    /\ (forall u, verifyRoles this (userInfo u) = Throw InvalidAuthorization).
Proof.
  intros repo required strat opts this. subst this.
  split; [intros userData; apply verifyRoles_HAS_ROLES_iff|].
  split.
  - intros held. rewrite verifyRoles_HAS_ROLES_iff.
    split.
    + intros [Hne [ids [[r [Hr [_ Hids]]] Hall]]].
      split; [exact Hne|].
      cbn in Hr. injection Hr as <-. cbn in Hids. injection Hids as <-.
      intros role Hin. rewrite Forall_forall in Hall.
      now apply includes_array_of_strings, Hall.
    + intros [Hne Hincl]. split; [exact Hne|].
      exists (VArr (List.map VStr held)). split.
      * exists (VObj [(Named "permissions", VArr (List.map VStr held))]).
        repeat split.
      * apply Forall_forall. intros role Hin.
        now apply includes_array_of_strings, Hincl.
  - intros u. unfold verifyRoles; cbn [metadata type roles existsb
      SecuredType_eqb orb andb].
    destruct required; reflexivity.
Qed.

(** *** Public endpoints *)

(** C3. Under [PERMIT_ALL] the role check lets every identity through,
    whatever the declared roles, and the action returns at once: it asks
    for the metadata and nothing else, so the strategy is neither fetched
    nor run and the current user is left as it was. *)
Theorem permitAll_skips_authentication :
  forall (repo : UserRepository.t) (declared : list string)
         (strat : string) (opts : option JsValue),
    let md := mkMetadata PERMIT_ALL declared strat opts in
    (forall userData,
        verifyRoles (mkProvider (Some md) repo) userData = Return tt)
    /\ (forall (s : option AuthenticationStrategy) request ctx,
           action (mkAction s (Some md)) request ctx
           = (Return VUndefined,
              mkContext (currentUser ctx) (calls ctx ++ [GetMetadata])%list)).
Proof.
  intros repo declared strat opts md. split.
  - intros userData. reflexivity.
  - intros s request ctx. reflexivity.
Qed.

(** *** Login and signup *)

Lemma login_missing repo now creds :
  falsyStr (Credentials.email creds) || falsyStr (Credentials.password creds)
  = true ->
  login repo now creds
  = Throw (HttpErrors.BadRequest "Missing Email or Password").
Proof.
  destruct creds as [[e|] [p|]]; cbn [Credentials.email Credentials.password
    falsyStr login]; intros H; try reflexivity.
  now rewrite H.
Qed.

Lemma login_present repo now email password :
  email <> "" -> password <> "" ->
  login repo now (Credentials.mk (Some email) (Some password))
  = match List.find (UserRepository.byEmail email) repo with
    | None => Throw (HttpErrors.Unauthorized "Invalid credentials")
    | Some user =>
        isPasswordMatched <- bcryptCompare password (User.password user) ;;
        if negb isPasswordMatched
        then Throw (HttpErrors.Unauthorized "Invalid credentials")
        else Return (sign email "testjwt" 3600 now)
    end.
Proof.
  intros He Hp. unfold login; cbn [Credentials.email Credentials.password].
  apply String.eqb_neq in He, Hp. rewrite He, Hp. cbn [orb].
  rewrite findOne_total. cbn [bind].
  destruct (List.find _ repo); reflexivity.
Qed.

(** C4. A login whose email or password is missing (or empty) is answered
    with 400.  Otherwise it is answered with 401 when no stored user has
    the email or when the comparison of the password with the stored hash
    fails, and with 200 and the token signed for the email when the
    comparison succeeds. *)
Theorem login_responses :
  forall (repo : UserRepository.t) (now : Z) (creds : Credentials.t),
    (Credentials.email creds = None \/ Credentials.email creds = Some ""
     \/ Credentials.password creds = None
     \/ Credentials.password creds = Some "" ->
     httpStatus (login repo now creds) = 400)
    /\ (forall email password,
           creds = Credentials.mk (Some email) (Some password) ->
           email <> "" -> password <> "" ->
           match List.find (UserRepository.byEmail email) repo with
           | None => httpStatus (login repo now creds) = 401
           | Some stored =>
               forall h, User.password stored = Some h ->
                 if bcrypt_compare password h
                 then login repo now creds
                      = Return (sign email JWT_SECRET (60 * 60) now)
                      /\ httpStatus (login repo now creds) = 200
                 else httpStatus (login repo now creds) = 401
           end).
Proof.
  intros repo now creds. split.
  - intros H. rewrite login_missing; [reflexivity|].
    destruct creds as [e p]; cbn [Credentials.email Credentials.password] in *.
    destruct H as [-> | [-> | [-> | ->]]]; cbn [falsyStr];
      try reflexivity; try apply orb_true_r.
  - intros email password -> He Hp.
    rewrite (login_present repo now email password He Hp).
    destruct (List.find (UserRepository.byEmail email) repo) as [stored|];
      [|reflexivity].
    intros h Hh. rewrite Hh. cbn [bcryptCompare bind].
    destruct (bcrypt_compare password h); cbn [negb]; [split|]; reflexivity.
Qed.

Lemma find_filter_none {A : Type} (f : A -> bool) (l : list A) :
  List.filter f l = [] <-> List.find f l = None.
Proof.
  induction l as [|a l IH]; cbn; [tauto|].
  destruct (f a); [split; discriminate | exact IH].
Qed.

Lemma createUser_registered salt user repo :
  List.find (UserRepository.byEmail (User.email user)) repo <> None ->
  createUser salt user repo
  = (Throw (HttpErrors.BadRequest "Email already exist."), repo).
Proof.
  intros Hfind. unfold createUser, UserRepository.find.
  destruct (List.filter _ repo) as [|x rest] eqn:Hf; [|reflexivity].
  apply find_filter_none in Hf. contradiction.
Qed.

Lemma createUser_fresh salt user repo :
  List.find (UserRepository.byEmail (User.email user)) repo = None ->
  createUser salt user repo
  = if falsyStr (User.password user)
    then (Throw (HttpErrors.BadRequest "User Must Have Password."), repo)
    else match User.password user with
         | None => (Throw (TypeError "Illegal arguments"), repo)
         | Some plain =>
             UserRepository.create repo
               (User.setPassword user (Some (bcrypt_hash plain salt)))
         end.
Proof.
  intros Hfind. unfold createUser, UserRepository.find.
  apply find_filter_none in Hfind. rewrite Hfind. reflexivity.
Qed.


(** *** The authenticated pipeline *)

Lemma fromExtractors_not_empty extractors request token :
  fromExtractors extractors request = Some token -> token <> "".
Proof.
  induction extractors as [|e rest IH]; cbn [fromExtractors];
    [discriminate|].
  destruct (e request) as [t|]; [|exact IH].
  destruct (String.eqb t "") eqn:Ht; [exact IH|].
  intros H. injection H as <-. now apply String.eqb_neq.
Qed.

Lemma action_with_strategy s md request ctx :
  SecuredType_eqb (type md) PERMIT_ALL = false ->
  action (mkAction (Some s) (Some md)) request ctx
  = let ctx' :=
      called (Authenticate request)
        (called GetStrategy (called GetMetadata ctx)) in
    match authenticate s request with
    | Throw e => (Throw e, ctx')
    | Return user =>
        if negb (truthy user) then (Return VUndefined, ctx')
        else (Return user, setCurrentUser user ctx')
    end.
Proof.
  intros Htype. unfold action; cbn [getMetadata getStrategy].
  rewrite Htype. reflexivity.
Qed.

Lemma value_secured (repo : UserRepository.t) (now : Z) :
  value (mkProvider (Some (secured None None None None)) repo) now
  = Some (StrategyAdapter
            (JwtStrategy jwtOptions
               (verifyToken
                  (mkProvider (Some (secured None None None None)) repo))
               now)
            JWT_STRATEGY_NAME).
Proof. reflexivity. Qed.

(** C6. [whoAmI] carries the metadata of a bare [@secured()], whose type
    is [IS_AUTHENTICATED].  A request whose token parses to a claim whose
    email resolves to a stored user is authenticated as that user, and
    [whoAmI] answers with the id of that stored user; conversely, whenever
    the action yields an identity, it is the one of the stored user found
    under the email of the claim of the request's token, and [whoAmI]
    answers with that user's id. *)
Theorem whoAmI_returns_subject_id :
  forall (repo : UserRepository.t) (now : Z),
    let md := methodMetadata UserWhoAmI in
    let this := mkProvider md repo in
    let provider := mkAction (value this now) md in
    (md = Some (secured None None None None)
     /\ option_map type md = Some IS_AUTHENTICATED
     /\ option_map roles md = Some [])
    /\ (forall request ctx token payload stored,
           jwtFromRequest jwtOptions request = Some token ->
           verify token JWT_SECRET now = Claim payload ->
           List.find (UserRepository.byEmail (payload_email payload)) repo
           = Some stored ->
           exists ctx',
             action provider request ctx = (Return (userInfo stored), ctx')
             /\ currentUser ctx' = Some (userInfo stored)
             /\ whoAmI (userInfo stored) = Return (optNum (User.id stored)))
    /\ (forall request ctx profile ctx',
           action provider request ctx = (Return profile, ctx') ->
           profile <> VUndefined ->
           exists token payload stored,
             jwtFromRequest jwtOptions request = Some token
             /\ verify token JWT_SECRET now = Claim payload
             /\ List.find (UserRepository.byEmail (payload_email payload))
                  repo = Some stored
             /\ profile = userInfo stored
             /\ currentUser ctx' = Some profile
             /\ whoAmI profile = Return (optNum (User.id stored))).
Proof.
  intros repo now md this provider.
  split; [repeat split|]. split.
  - intros request ctx token payload stored Htok Hparse Hfind.
    subst provider this md. cbn [methodMetadata].
    rewrite value_secured, action_with_strategy by reflexivity.
    cbn [authenticate StrategyAdapter].
    unfold JwtStrategy. rewrite Htok.
    pose proof (fromExtractors_not_empty _ _ _ Htok) as Hne.
    apply String.eqb_neq in Hne. rewrite Hne.
    unfold checkToken. cbn [secretOrKey jwtOptions]. rewrite Hparse.
    rewrite (verifyToken_found _ payload stored) by exact Hfind.
    cbn. eexists. repeat split.
  - intros request ctx profile ctx' Hact Hdef.
    subst provider this md. cbn [methodMetadata] in Hact.
    rewrite value_secured, action_with_strategy in Hact by reflexivity.
    cbn [authenticate StrategyAdapter] in Hact.
    unfold JwtStrategy in Hact.
    destruct (jwtFromRequest jwtOptions request) as [token|] eqn:Htok;
      [|discriminate].
    destruct (String.eqb token ""); [discriminate|].
    unfold checkToken in Hact. cbn [secretOrKey jwtOptions] in Hact.
    destruct (verify token JWT_SECRET now) as [payload| |] eqn:Hparse;
      try discriminate.
    destruct (List.find (UserRepository.byEmail (payload_email payload)) repo)
      as [stored|] eqn:Hfind.
    + rewrite (verifyToken_found _ payload stored) in Hact by exact Hfind.
      cbn in Hact. injection Hact as <- <-.
      exists token, payload, stored. repeat split; assumption.
    + rewrite (verifyToken_missing _ payload) in Hact by exact Hfind.
      cbn in Hact. discriminate.
Qed.

(** *** The projection *)

Lemma find_byEmail_setPassword (f : User.t -> option string) email repo :
  List.find (UserRepository.byEmail email)
    (List.map (fun u => User.setPassword u (f u)) repo)
  = option_map (fun u => User.setPassword u (f u))
      (List.find (UserRepository.byEmail email) repo).
Proof.
  induction repo as [|u repo IH]; [reflexivity|].
  cbn [List.map List.find]. unfold UserRepository.byEmail at 1 3.
  cbn [User.setPassword User.email].
  destruct (String.eqb (User.email u) email); [reflexivity | exact IH].
Qed.

(** C7. The identity built from a stored user owns the keys [securityId],
    [username], [email], [roles], [phone] and [photoUrl], bound to the
    user's fields of those names ([roles] to the empty object), and no
    [password]; it is the same whatever the stored hash, and so is the
    whole outcome of [verifyToken] when every stored hash is replaced. *)
Theorem userInfo_omits_password :
  forall (stored : User.t),
    ownKeys (userInfo stored)
    = [ SecurityId; Named "username"; Named "email"; Named "roles";
        Named "phone"; Named "photoUrl" ]
    /\ hasOwnProperty (userInfo stored) "password" = Return false
    /\ getProp (userInfo stored) (Named "password") = Return VUndefined
    /\ getProp (userInfo stored) SecurityId
       = Return (optNum (User.id stored))
    /\ getProp (userInfo stored) (Named "username")
       = Return (optStr (User.username stored))
    /\ getProp (userInfo stored) (Named "email")
       = Return (VStr (User.email stored))
    /\ getProp (userInfo stored) (Named "roles") = Return (VObj [])
    /\ getProp (userInfo stored) (Named "phone")
       = Return (optStr (User.phone stored))
    /\ getProp (userInfo stored) (Named "photoUrl")
       = Return (optStr (User.photoUrl stored))
    /\ (forall hash, userInfo (User.setPassword stored hash)
                     = userInfo stored)
    /\ (forall md repo payload (f : User.t -> option string),
           verifyToken
             (mkProvider md
                (List.map (fun u => User.setPassword u (f u)) repo)) payload
           = verifyToken (mkProvider md repo) payload).
Proof.
  intros stored. repeat split.
  intros md repo payload f. unfold verifyToken; cbn [userRepository].
  rewrite !findOne_total, find_byEmail_setPassword.
  destruct (List.find _ repo); reflexivity.
Qed.

(** *** Tokens *)

Lemma login_returns repo now creds token :
  login repo now creds = Return token ->
  exists email password,
    creds = Credentials.mk (Some email) (Some password)
    /\ token = sign email "testjwt" (60 * 60) now.
Proof.
  destruct creds as [[email|] [password|]]; cbn [login Credentials.email
    Credentials.password]; try discriminate.
  destruct (String.eqb email "" || String.eqb password ""); [discriminate|].
  rewrite findOne_total; cbn [bind].
  destruct (List.find _ repo) as [stored|]; [|discriminate].
  destruct (bcryptCompare password (User.password stored)) as [[|]|e];
    cbn [bind negb]; try discriminate.
  intros H. injection H as <-. now exists email, password.
Qed.

Lemma verify_at_expiry email secret ttl issued :
  let claim := mkPayload email issued (issued + ttl) in
  jwt_decode secret (jwt_encode secret claim) = Some claim ->
  verify (sign email secret ttl issued) secret (issued + ttl) = Expired.
Proof.
  intros claim Hdecode. unfold verify, sign. fold claim. rewrite Hdecode.
  cbn [exp claim]. now rewrite Z.ltb_irrefl.
Qed.

(** C8. A token issued for a claim with a time to live, of a codec that
    reads back what it wrote, parses to that claim at any time before the
    time to live has run out since the issue, and to [Expired] at any
    time after.  A login with the email and the password of a stored user
    returns such a token: the one issued for that email at the time of the
    login with a time to live of 3600 seconds, under the secret the
    strategy verifies with.  Before the hour is over the strategy parses
    it to the claim and resolves it to that user; once the hour is over it
    parses to [Expired] and the strategy fails.  And [login] returns no
    other tokens. *)
Theorem token_roundtrip_until_expiry :
  (forall (email secret : string) (ttl issued t : Z),
      let claim := mkPayload email issued (issued + ttl) in
      jwt_decode secret (jwt_encode secret claim) = Some claim ->
      (t < issued + ttl ->
       verify (sign email secret ttl issued) secret t = Claim claim
       /\ payload_email claim = email)
      /\ (issued + ttl < t ->
          verify (sign email secret ttl issued) secret t = Expired))
  /\ (forall (repo : UserRepository.t) (now : Z) (email password : string)
             (stored : User.t) (h : string),
        let claim := mkPayload email now (now + 60 * 60) in
        email <> "" -> password <> "" ->
        List.find (UserRepository.byEmail email) repo = Some stored ->
        User.password stored = Some h ->
        bcrypt_compare password h = true ->
        jwt_decode JWT_SECRET (jwt_encode JWT_SECRET claim) = Some claim ->
        exists token,
          login repo now (Credentials.mk (Some email) (Some password))
          = Return token
          /\ token = sign email (secretOrKey jwtOptions) (60 * 60) now
          /\ (forall t md,
                t < now + 60 * 60 ->
                verify token (secretOrKey jwtOptions) t = Claim claim
                /\ checkToken jwtOptions (verifyToken (mkProvider md repo))
                     t token
                   = Success (userInfo stored))
          /\ (forall t verifyCallback,
                now + 60 * 60 < t ->
                verify token (secretOrKey jwtOptions) t = Expired
                /\ checkToken jwtOptions verifyCallback t token = Fail))
  /\ (forall repo now creds token,
         login repo now creds = Return token ->
         exists subject,
           Credentials.email creds = Some subject
           /\ token = sign subject (secretOrKey jwtOptions) 3600 now).
Proof.
  assert (Hcodec : forall (email secret : string) (ttl issued t : Z),
             let claim := mkPayload email issued (issued + ttl) in
             jwt_decode secret (jwt_encode secret claim) = Some claim ->
             (t < issued + ttl ->
              verify (sign email secret ttl issued) secret t = Claim claim)
             /\ (issued + ttl < t ->
                 verify (sign email secret ttl issued) secret t = Expired)).
  { intros email secret ttl issued t claim Hdecode. split.
    - intros Hbefore. unfold verify, sign. fold claim. rewrite Hdecode.
      cbn [exp claim]. apply Z.ltb_lt in Hbefore. now rewrite Hbefore.
    - intros Hafter. unfold verify, sign. fold claim. rewrite Hdecode.
      cbn [exp claim].
      assert (Hnot : (t <? issued + ttl) = false) by (apply Z.ltb_ge; lia).
      now rewrite Hnot. }
  split; [|split].
  - intros email secret ttl issued t claim Hdecode.
    destruct (Hcodec email secret ttl issued t Hdecode) as [Hbefore Hafter].
    split; [|exact Hafter].
    intros Ht. split; [now apply Hbefore | reflexivity].
  - intros repo now email password stored h claim He Hp Hfind Hh Hcmp Hdecode.
    exists (sign email JWT_SECRET (60 * 60) now).
    split; [|split; [reflexivity|split]].
    + rewrite (login_present repo now email password He Hp), Hfind, Hh.
      cbn [bcryptCompare bind]. now rewrite Hcmp.
    + intros t md Ht.
      destruct (Hcodec email JWT_SECRET (60 * 60) now t Hdecode)
        as [Hbefore _].
      specialize (Hbefore Ht). cbn [secretOrKey jwtOptions].
      split; [exact Hbefore|].
      unfold checkToken. cbn [secretOrKey jwtOptions]. rewrite Hbefore.
      rewrite (verifyToken_found _ claim stored) by exact Hfind.
      reflexivity.
    + intros t verifyCallback Ht.
      destruct (Hcodec email JWT_SECRET (60 * 60) now t Hdecode)
        as [_ Hafter].
      specialize (Hafter Ht). cbn [secretOrKey jwtOptions].
      split; [exact Hafter|].
      unfold checkToken. cbn [secretOrKey jwtOptions]. now rewrite Hafter.
  - intros repo now creds token Hlogin.
    apply login_returns in Hlogin.
    destruct Hlogin as [subject [password [-> ->]]].
    exists subject. split; reflexivity.
Qed.

(** *** Extraction order *)

Lemma jwtFromRequest_order request :
  jwtFromRequest jwtOptions request
  = match fromAuthHeaderAsBearerToken request with
    | Some token =>
        if String.eqb token ""
        then match fromUrlQueryParameter "access_token" request with
             | Some token' => if String.eqb token' "" then None
                              else Some token'
             | None => None
             end
        else Some token
    | None =>
        match fromUrlQueryParameter "access_token" request with
        | Some token' => if String.eqb token' "" then None else Some token'
        | None => None
        end
    end.
Proof.
  cbn [jwtFromRequest jwtOptions fromExtractors].
  destruct (fromAuthHeaderAsBearerToken request) as [t|];
    [destruct (String.eqb t "")|];
    destruct (fromUrlQueryParameter "access_token" request) as [t'|];
    try destruct (String.eqb t' ""); reflexivity.
Qed.

(** C9. Of a request that carries a token in the [Authorization: Bearer]
    header and one in the [access_token] query parameter, the strategy
    verifies the header's when it is not empty, and otherwise the
    parameter's when that one is not empty. *)
Theorem header_token_first :
  forall (request : Request) (fromHeader fromQuery : string),
    fromAuthHeaderAsBearerToken request = Some fromHeader ->
    fromUrlQueryParameter "access_token" request = Some fromQuery ->
    (fromHeader <> "" ->
     jwtFromRequest jwtOptions request = Some fromHeader
     /\ forall verifyCallback now,
          JwtStrategy jwtOptions verifyCallback now request
          = checkToken jwtOptions verifyCallback now fromHeader)
    /\ (fromHeader = "" -> fromQuery <> "" ->
        jwtFromRequest jwtOptions request = Some fromQuery
        /\ forall verifyCallback now,
             JwtStrategy jwtOptions verifyCallback now request
             = checkToken jwtOptions verifyCallback now fromQuery).
Proof.
  intros request fromHeader fromQuery Hh Hq.
  assert (Hfirst : fromHeader <> "" ->
                   jwtFromRequest jwtOptions request = Some fromHeader).
  { intros Hne. rewrite jwtFromRequest_order, Hh.
    apply String.eqb_neq in Hne. now rewrite Hne. }
  assert (Hsecond : fromHeader = "" -> fromQuery <> "" ->
                    jwtFromRequest jwtOptions request = Some fromQuery).
  { intros -> Hne. rewrite jwtFromRequest_order, Hh, Hq.
    apply String.eqb_neq in Hne. now rewrite Hne. }
  split.
  - intros Hne. split; [now apply Hfirst|].
    intros verifyCallback now. unfold JwtStrategy.
    rewrite (Hfirst Hne). apply String.eqb_neq in Hne. now rewrite Hne.
  - intros Hempty Hne. split; [now apply Hsecond|].
    intros verifyCallback now. unfold JwtStrategy.
    rewrite (Hsecond Hempty Hne). apply String.eqb_neq in Hne.
    now rewrite Hne.
Qed.

(** *** Ownership of products *)

Lemma looseNeq_of_neq (a b : option Z) : a <> b -> looseNeq a b = true.
Proof.
  destruct a as [x|], b as [y|]; cbn; try reflexivity.
  intros Hne. apply negb_true_iff, Z.eqb_neq. congruence.
Qed.

(** C10. When the stored product's [user_id] differs from the caller's
    subject id, [updateById] and [deleteById] throw [Unauthorized], which
    is answered with 401, and leave the product repository as it was. *)
Theorem ownership_check_guards_write :
  forall (currentUserProfile : JsValue) (id : Z) (name : option string)
         (price : option Z) (repo : ProductRepository.t)
         (oldProduct : Product.t) (sid : JsValue),
    ProductRepository.findById repo id = Return oldProduct ->
    getProp currentUserProfile SecurityId = Return sid ->
    Product.user_id oldProduct <> parseInt sid ->
    updateById currentUserProfile id name price repo
    = (Throw (HttpErrors.Unauthorized "Invalid authorization"), repo)
    /\ deleteById currentUserProfile id repo
       = (Throw (HttpErrors.Unauthorized "Invalid authorization"), repo)
    /\ httpStatus (fst (updateById currentUserProfile id name price repo))
       = 401
    /\ httpStatus (fst (deleteById currentUserProfile id repo)) = 401.
Proof.
  intros profile id name price repo oldProduct sid Hfind Hsid Hdiff.
  unfold updateById, deleteById. rewrite Hfind, Hsid.
  rewrite (looseNeq_of_neq _ _ Hdiff). repeat split.
Qed.

(** Conversely, a repository left different means that the product was
    found and the ownership check passed. *)
Lemma write_implies_ownership profile id name price repo :
  (snd (updateById profile id name price repo) <> repo
   \/ snd (deleteById profile id repo) <> repo) ->
  exists oldProduct sid,
    ProductRepository.findById repo id = Return oldProduct
    /\ getProp profile SecurityId = Return sid
    /\ looseNeq (Product.user_id oldProduct) (parseInt sid) = false.
Proof.
  unfold updateById, deleteById.
  destruct (ProductRepository.findById repo id) as [old|e];
    [|cbn; intros [H|H]; now elim H].
  destruct (getProp profile SecurityId) as [sid|e];
    [|cbn; intros [H|H]; now elim H].
  destruct (looseNeq (Product.user_id old) (parseInt sid)) eqn:Hneq;
    [cbn; intros [H|H]; now elim H|].
  intros _. now exists old, sid.
Qed.

(** A request without a token is refused on [whoAmI] with 401, and no
    current user is set. *)
Lemma whoAmI_without_token repo now ctx :
  let md := methodMetadata UserWhoAmI in
  let r := action (mkAction (value (mkProvider md repo) now) md)
             (mkRequest None []) ctx in
  httpStatus (fst r) = 401 /\ currentUser (snd r) = currentUser ctx.
Proof. split; reflexivity. Qed.

(** [deleteById] carries no [@secured()]: for it no strategy is built and
    the action authenticates nobody. *)
Lemma deleteById_not_secured repo now request ctx :
  let md := methodMetadata ProductDeleteById in
  md = None
  /\ action (mkAction (value (mkProvider md repo) now) md) request ctx
     = (Return VUndefined,
        mkContext (currentUser ctx)
          (calls ctx ++ [GetMetadata; GetStrategy])%list).
Proof.
  split; [reflexivity|].
  unfold action, called; cbn. now rewrite <- app_assoc.
Qed.

(** *** More on the role check *)

Lemma includes_throws_alike (roleIds : JsValue) (a b : string) (e : JsError) :
  includes roleIds a = Throw e -> includes roleIds b = Throw e.
Proof. destruct roleIds; cbn; intros H; try discriminate; exact H. Qed.

Lemma anyRoleLoop_true userData r roleIds (required : list string) :
  getProp userData (Named "roles") = Return r ->
  getProp r (Named "permissions") = Return roleIds ->
  anyRoleLoop userData required = Return true
  <-> Exists (fun role => includes roleIds role = Return true) required.
Proof.
  intros Hr Hids.
  induction required as [|role rest IH]; cbn [anyRoleLoop].
  - split; [discriminate | intros H; inversion H].
  - rewrite Hr; cbn [bind]. rewrite Hids; cbn [bind].
    destruct (includes roleIds role) as [[|]|e] eqn:Hincl; cbn [bind].
    + split; [intros _; now constructor | reflexivity].
    + rewrite IH. split.
      * intros Hrest. now apply Exists_cons_tl.
      * intros Hex. inversion Hex as [? ? Hhd | ? ? Htl]; [congruence | exact Htl].
    + split; [discriminate|].
      intros Hex. apply Exists_exists in Hex. destruct Hex as [x [_ Hx]].
      rewrite (includes_throws_alike roleIds role x e Hincl) in Hx.
      discriminate.
Qed.

Lemma verifyRoles_HAS_ANY_ROLE_iff repo required strat opts userData :
  verifyRoles (mkProvider (Some (mkMetadata HAS_ANY_ROLE required strat opts))
                 repo) userData = Return tt
  <-> exists roleIds,
        heldRoles userData roleIds
        /\ Exists (fun role => includes roleIds role = Return true) required.
Proof.
  unfold verifyRoles, heldRoles; cbn [metadata type roles existsb
    SecuredType_eqb orb andb].
  destruct required as [|role rest].
  - cbn. split; [discriminate | intros [ids [_ Hex]]; inversion Hex].
  - cbn [isEmpty].
    destruct (getProp userData (Named "roles")) as [r|e] eqn:Hr; cbn [bind].
    2:{ split; [discriminate|]. intros [ids [[r [Hr' _]] _]]. discriminate. }
    destruct (hasOwnProperty r "permissions") as [[|]|e] eqn:Hown;
      cbn [bind negb].
    + destruct (getProp r (Named "permissions")) as [ids|e] eqn:Hids.
      * destruct (anyRoleLoop userData (role :: rest)) as [[|]|e] eqn:Hloop;
          cbn [bind].
        -- split; [|reflexivity]. intros _. exists ids. split.
           ++ exists r. auto.
           ++ now apply (anyRoleLoop_true userData r ids).
        -- split; [discriminate|].
           intros [ids' [[r' [Hr' [_ Hids']]] Hex]].
           injection Hr' as <-. rewrite Hids in Hids'. injection Hids' as <-.
           apply (anyRoleLoop_true userData r ids _ Hr Hids) in Hex. congruence.
        -- split; [discriminate|].
           intros [ids' [[r' [Hr' [_ Hids']]] Hex]].
           injection Hr' as <-. rewrite Hids in Hids'. injection Hids' as <-.
           apply (anyRoleLoop_true userData r ids _ Hr Hids) in Hex. congruence.
      * assert (Hloop : anyRoleLoop userData (role :: rest) = Throw e)
          by (cbn [anyRoleLoop]; rewrite Hr; cbn [bind]; rewrite Hids;
              reflexivity).
        rewrite Hloop; cbn [bind].
        split; [discriminate|].
        intros [ids' [[r' [Hr' [_ Hids']]] _]].
        injection Hr' as <-. congruence.
    + split; [discriminate|].
      intros [ids' [[r' [Hr' [Hown' _]]] _]]. injection Hr' as <-. congruence.
    + split; [discriminate|].
      intros [ids' [[r' [Hr' [Hown' _]]] _]]. injection Hr' as <-. congruence.
Qed.

Lemma heldRoles_identityWithRoles held roleIds :
  heldRoles (identityWithRoles held) roleIds
  <-> roleIds = VArr (List.map VStr held).
Proof.
  unfold heldRoles. split.
  - intros [r [Hr [_ Hids]]]. cbn in Hr. injection Hr as <-.
    cbn in Hids. now injection Hids as <-.
  - intros ->.
    exists (VObj [(Named "permissions", VArr (List.map VStr held))]).
    repeat split.
Qed.

Lemma verifyRoles_HAS_ANY_ROLE_held repo required strat opts held :
  verifyRoles (mkProvider (Some (mkMetadata HAS_ANY_ROLE required strat opts))
                 repo) (identityWithRoles held) = Return tt
  <-> exists role, In role required /\ In role held.
Proof.
  rewrite verifyRoles_HAS_ANY_ROLE_iff. split.
  - intros [ids [Hheld Hex]]. apply heldRoles_identityWithRoles in Hheld.
    subst ids. apply Exists_exists in Hex. destruct Hex as [role [Hin Hinc]].
    exists role. split; [exact Hin | now apply includes_array_of_strings].
  - intros [role [Hin Hheld]]. exists (VArr (List.map VStr held)).
    split; [now apply heldRoles_identityWithRoles|].
    apply Exists_exists. exists role.
    split; [exact Hin | now apply includes_array_of_strings].
Qed.

Lemma verifyRoles_HAS_ROLES_held repo required strat opts held :
  verifyRoles (mkProvider (Some (mkMetadata HAS_ROLES required strat opts))
                 repo) (identityWithRoles held) = Return tt
  <-> required <> [] /\ incl required held.
Proof.
  rewrite verifyRoles_HAS_ROLES_iff. split.
  - intros [Hne [ids [Hheld Hall]]]. split; [exact Hne|].
    apply heldRoles_identityWithRoles in Hheld. subst ids.
    intros role Hin. rewrite Forall_forall in Hall.
    now apply includes_array_of_strings, Hall.
  - intros [Hne Hincl]. split; [exact Hne|].
    exists (VArr (List.map VStr held)).
    split; [now apply heldRoles_identityWithRoles|].
    apply Forall_forall. intros role Hin.
    now apply includes_array_of_strings, Hincl.
Qed.

(** X1. A [HAS_ANY_ROLE] requirement lets an identity through exactly when
    its [roles] owns a [permissions] value that includes one of the
    required roles; for an identity holding a list of roles: when a
    required role is among the held ones.  An empty required list lets
    nobody through. *)
Theorem verifyRoles_HAS_ANY_ROLE :
  forall (repo : UserRepository.t) (required : list string)
         (strat : string) (opts : option JsValue),
    let this :=
      mkProvider (Some (mkMetadata HAS_ANY_ROLE required strat opts)) repo in
    (forall userData,
        verifyRoles this userData = Return tt
        <-> exists roleIds,
              heldRoles userData roleIds
              /\ Exists (fun role => includes roleIds role = Return true)
                   required)
    /\ (forall held,
           verifyRoles this (identityWithRoles held) = Return tt
           <-> exists role, In role required /\ In role held)
    /\ (required = [] -> forall userData,
           verifyRoles this userData = Throw InvalidAuthorization).
Proof.
  intros repo required strat opts this. subst this.
  split; [intros userData; apply verifyRoles_HAS_ANY_ROLE_iff|].
  split.
  - intros held. apply verifyRoles_HAS_ANY_ROLE_held.
  - intros -> userData. reflexivity.
Qed.

(** X2. An identity that passes [HAS_ROLES] for a required list passes
    [HAS_ANY_ROLE] for the same list. *)
Theorem verifyRoles_all_implies_any :
  forall (repo repo' : UserRepository.t) (required : list string)
         (strat strat' : string) (opts opts' : option JsValue)
         (userData : JsValue),
    verifyRoles (mkProvider (Some (mkMetadata HAS_ROLES required strat opts))
                   repo) userData = Return tt ->
    verifyRoles
      (mkProvider (Some (mkMetadata HAS_ANY_ROLE required strat' opts')) repo')
      userData = Return tt.
Proof.
  intros repo repo' required strat strat' opts opts' userData Hall.
  apply verifyRoles_HAS_ROLES_iff in Hall.
  destruct Hall as [Hne [ids [Hheld Hforall]]].
  apply verifyRoles_HAS_ANY_ROLE_iff. exists ids. split; [exact Hheld|].
  destruct required as [|role rest]; [now elim Hne|].
  inversion Hforall. now constructor.
Qed.

(** X3. Holding more roles never turns an allowed identity into a refused
    one, whatever the requirement. *)
Theorem verifyRoles_monotone :
  forall (this : MyAuthAuthenticationStrategyProvider)
         (held held' : list string),
    incl held held' ->
    verifyRoles this (identityWithRoles held) = Return tt ->
    verifyRoles this (identityWithRoles held') = Return tt.
Proof.
  intros [[[t required strat opts]|] repo] held held' Hincl Hallow;
    [|discriminate].
  destruct t; try exact Hallow.
  - apply verifyRoles_HAS_ANY_ROLE_held.
    apply verifyRoles_HAS_ANY_ROLE_held in Hallow.
    destruct Hallow as [role [Hin Hheld]].
    exists role. split; [exact Hin | now apply Hincl].
  - apply verifyRoles_HAS_ROLES_held.
    apply verifyRoles_HAS_ROLES_held in Hallow. destruct Hallow as [Hne Hsub].
    split; [exact Hne|]. intros role Hin. now apply Hincl, Hsub.
Qed.

(** X4. The identity [verifyToken] builds, whose [roles] is the empty
    object, passes the role check exactly under [IS_AUTHENTICATED] and
    [PERMIT_ALL]; under every other type, whatever the declared roles, it
    is refused with [Unauthorized]. *)
Theorem verifyRoles_on_userInfo :
  forall (md : MyAuthenticationMetadata) (repo : UserRepository.t)
         (stored : User.t),
    (verifyRoles (mkProvider (Some md) repo) (userInfo stored) = Return tt
     <-> type md = IS_AUTHENTICATED \/ type md = PERMIT_ALL)
    /\ (verifyRoles (mkProvider (Some md) repo) (userInfo stored) = Return tt
        \/ verifyRoles (mkProvider (Some md) repo) (userInfo stored)
           = Throw InvalidAuthorization).
Proof.
  intros [t required strat opts] repo stored.
  unfold verifyRoles; cbn [metadata type roles].
  destruct t; cbn [existsb SecuredType_eqb orb andb].
  - split; [split; auto | now left].
  - split; [split; auto | now left].
  - destruct required; cbn;
      (split; [split; [discriminate | intros [H|H]; discriminate]
              | now right]).
  - destruct required; cbn;
      (split; [split; [discriminate | intros [H|H]; discriminate]
              | now right]).
  - split; [split; [discriminate | intros [H|H]; discriminate] | now right].
Qed.

(** *** More on the action and the strategy *)

(** X5. The action binds the current user only when it returns an
    identity, and then to the very value the strategy resolved with; when
    it returns [undefined] or throws, the binding is left as it was, and
    what it throws is what the strategy threw. *)
Theorem action_binds_what_it_returns :
  forall (this : MyAuthActionProvider) (request : Request)
         (ctx : AuthContext),
    let r := action this request ctx in
    (forall v, fst r = Return v -> v <> VUndefined ->
       truthy v = true
       /\ currentUser (snd r) = Some v
       /\ exists s, getStrategy this = Some s
                    /\ authenticate s request = Return v)
    /\ (fst r = Return VUndefined -> currentUser (snd r) = currentUser ctx)
    /\ (forall e, fst r = Throw e ->
          currentUser (snd r) = currentUser ctx
          /\ exists s, getStrategy this = Some s
                       /\ authenticate s request = Throw e).
Proof.
  intros [s md] request ctx r. subst r. unfold action.
  cbn [getMetadata getStrategy].
  destruct (match md with
            | Some metadata => SecuredType_eqb (type metadata) PERMIT_ALL
            | None => false
            end).
  { cbn. split; [|split]; [intros v H; injection H as <-; intros Hv; now elim Hv
                          | reflexivity | discriminate]. }
  destruct s as [s|].
  2:{ cbn. split; [|split];
        [intros v H; injection H as <-; intros Hv; now elim Hv
        | reflexivity | discriminate]. }
  destruct (authenticate s request) as [u|e] eqn:Hauth.
  - destruct (truthy u) eqn:Htruthy; cbn [negb fst snd].
    + split; [|split].
      * intros v H _. injection H as <-. repeat split; try assumption.
        now exists s.
      * intros H. injection H as ->. discriminate.
      * discriminate.
    + split; [|split].
      * intros v H Hv. injection H as <-. now elim Hv.
      * reflexivity.
      * discriminate.
  - cbn [fst snd]. split; [|split]; try discriminate.
    intros e' H. injection H as <-. split; [reflexivity | now exists s].
Qed.

(** X6. The provider builds a strategy exactly when the metadata is there
    and names the strategy [jwt]; under metadata naming any other strategy,
    and a type other than [PERMIT_ALL] or not, the action returns
    [undefined] without authenticating the request or binding a user. *)
Theorem value_only_for_jwt :
  forall (this : MyAuthAuthenticationStrategyProvider) (now : Z),
    ((exists s, value this now = Some s)
     <-> exists md, metadata this = Some md /\ strategy md = JWT_STRATEGY_NAME)
    /\ (forall s, value this now = Some s -> name s = JWT_STRATEGY_NAME)
    /\ (forall md request ctx,
           metadata this = Some md ->
           strategy md <> JWT_STRATEGY_NAME ->
           let r := action (mkAction (value this now) (Some md)) request ctx in
           fst r = Return VUndefined
           /\ currentUser (snd r) = currentUser ctx
           /\ (In (Authenticate request) (calls (snd r)) ->
               In (Authenticate request) (calls ctx))).
Proof.
  intros [md repo] now. unfold value; cbn [metadata].
  split; [|split].
  - split.
    + intros [s Hs]. destruct md as [md|]; [|discriminate].
      exists md. split; [reflexivity|].
      destruct (String.eqb (strategy md) JWT_STRATEGY_NAME) eqn:Hname;
        [now apply String.eqb_eq | discriminate].
    + intros [md' [-> Hname]]. apply String.eqb_eq in Hname. rewrite Hname.
      eexists. reflexivity.
  - intros s. destruct md as [md|]; [|discriminate].
    destruct (String.eqb (strategy md) JWT_STRATEGY_NAME); [|discriminate].
    intros H. injection H as <-. reflexivity.
  - intros md' request ctx -> Hname.
    apply String.eqb_neq in Hname. rewrite Hname.
    unfold action; cbn [getMetadata getStrategy].
    destruct (SecuredType_eqb (type md') PERMIT_ALL); cbn.
    + repeat split. intros Hin. apply in_app_or in Hin.
      destruct Hin as [Hin | [Hin | []]]; [exact Hin | discriminate].
    + repeat split. intros Hin. apply in_app_or in Hin.
      destruct Hin as [Hin | [Hin | []]]; [|discriminate].
      apply in_app_or in Hin.
      destruct Hin as [Hin | [Hin | []]]; [exact Hin | discriminate].
Qed.

(** X7. [verifyToken] is its continuation applied to the settled lookup.
    Whatever the lookup settles with, [done] is called with a user only
    for a stored user found; it is called a second time exactly when the
    lookup rejected with an [UnauthorizedError], the first call then
    reporting a failure without error; and the first call carries an error
    exactly when the lookup rejected with an error of another name. *)
Theorem verifyToken_settles :
  forall (this : MyAuthAuthenticationStrategyProvider)
         (payload : TokenPayload) (found : Completion (option User.t)),
    let r := verifyTokenAfter found in
    verifyToken this payload
    = verifyTokenAfter
        (UserRepository.findOne (userRepository this) (payload_email payload))
    /\ (succeeded r = true <-> exists u, found = Return (Some u))
    /\ (forall c, In c (fst r :: snd r) ->
          user c = VBool false
          \/ exists u, found = Return (Some u) /\ user c = userInfo u)
    /\ (snd r <> [] <->
        exists e, found = Throw e /\ errName e = "UnauthorizedError")
    /\ (snd r <> [] -> err (fst r) = None /\ user (fst r) = VBool false)
    /\ (err (fst r) <> None <->
        exists e, found = Throw e /\ errName e <> "UnauthorizedError").
Proof.
  intros this payload found r. subst r.
  split; [reflexivity|].
  destruct found as [[u|]|e]; cbn [verifyTokenAfter].
  - cbn. split; [split; [intros _; now exists u | reflexivity]|].
    split; [intros c [<- | []]; right; now exists u|].
    split; [split; [intros H; now elim H | intros [e [H _]]; discriminate]|].
    split; [intros H; now elim H|].
    split; [intros H; now elim H | intros [e [H _]]; discriminate].
  - cbn. split; [split; [discriminate | intros [u H]; discriminate]|].
    split; [intros c [<- | []]; now left|].
    split; [split; [intros H; now elim H | intros [e [H _]]; discriminate]|].
    split; [intros H; now elim H|].
    split; [intros H; now elim H | intros [e [H _]]; discriminate].
  - destruct (String.eqb (errName e) "UnauthorizedError") eqn:Hname.
    + apply String.eqb_eq in Hname. cbn.
      split; [split; [discriminate | intros [u H]; discriminate]|].
      split; [intros c [<- | [<- | []]]; now left|].
      split; [split; [intros _; now exists e | discriminate]|].
      split; [intros _; split; reflexivity|].
      split; [intros H; now elim H|].
      intros [e' [H Hne]]. injection H as <-. contradiction.
    + apply String.eqb_neq in Hname. cbn.
      split; [split; [discriminate | intros [u H]; discriminate]|].
      split; [intros c [<- | []]; now left|].
      split; [split; [intros H; now elim H|]|].
      { intros [e' [H Heq]]. injection H as <-. contradiction. }
      split; [intros H; now elim H|].
      split; [intros _; now exists e | discriminate].
Qed.

(** *** More on login and signup *)

Lemma find_app_none {A : Type} (f : A -> bool) (l l' : list A) :
  List.find f l = None -> List.find f (l ++ l')%list = List.find f l'.
Proof.
  induction l as [|a l IH]; cbn; [reflexivity|].
  destruct (f a); [discriminate | exact IH].
Qed.

Lemma find_byEmail_none email repo :
  List.find (UserRepository.byEmail email) repo = None ->
  ~ In email (List.map User.email repo).
Proof.
  intros Hnone Hin. apply in_map_iff in Hin. destruct Hin as [u [Hu Hin]].
  pose proof (find_none _ _ Hnone u Hin) as Hfalse.
  unfold UserRepository.byEmail in Hfalse. rewrite Hu in Hfalse.
  now rewrite String.eqb_refl in Hfalse.
Qed.

Lemma createUser_returns salt user repo created repo' :
  createUser salt user repo = (Return created, repo') ->
  List.find (UserRepository.byEmail (User.email user)) repo = None
  /\ exists plain,
       User.password user = Some plain
       /\ plain <> ""
       /\ repo' = (repo ++ [created])%list
       /\ User.email created = User.email user
       /\ User.password created = Some (bcrypt_hash plain salt).
Proof.
  intros Hcreate.
  destruct (List.find (UserRepository.byEmail (User.email user)) repo)
    as [u|] eqn:Hfind.
  - rewrite createUser_registered in Hcreate by congruence. discriminate.
  - split; [reflexivity|].
    rewrite (createUser_fresh salt user repo Hfind) in Hcreate.
    destruct (User.password user) as [plain|] eqn:Hpw; cbn [falsyStr] in Hcreate;
      [|discriminate].
    destruct (String.eqb plain "") eqn:Hplain; [discriminate|].
    exists plain. apply String.eqb_neq in Hplain.
    unfold UserRepository.create in Hcreate.
    destruct user as [i un em pw ph pu]; cbn in *.
    destruct i; cbn in Hcreate; injection Hcreate as <- <-; repeat split;
      assumption.
Qed.

Lemma createUser_writes salt user repo :
  snd (createUser salt user repo) = repo
  \/ exists created,
       createUser salt user repo
       = (Return created, (repo ++ [created])%list).
Proof.
  destruct (List.find (UserRepository.byEmail (User.email user)) repo)
    as [u|] eqn:Hfind.
  - left. rewrite createUser_registered by congruence. reflexivity.
  - rewrite (createUser_fresh salt user repo Hfind).
    destruct (falsyStr (User.password user)); [now left|].
    destruct (User.password user); [|now left].
    right. unfold UserRepository.create. eexists. reflexivity.
Qed.

(** X8. [login] returns a token only for a request with a non-empty email
    and password, whose email finds a stored user and whose password
    compares equal to that user's hash; the token is then the one signed
    for that email. *)
Theorem login_issues_only_after_match :
  forall (repo : UserRepository.t) (now : Z) (creds : Credentials.t)
         (token : string),
    login repo now creds = Return token ->
    exists email password stored h,
      creds = Credentials.mk (Some email) (Some password)
      /\ email <> "" /\ password <> ""
      /\ List.find (UserRepository.byEmail email) repo = Some stored
      /\ User.password stored = Some h
      /\ bcrypt_compare password h = true
      /\ token = sign email JWT_SECRET (60 * 60) now.
Proof.
  intros repo now [[email|] [password|]] token; cbn [login Credentials.email
    Credentials.password]; try discriminate.
  destruct (String.eqb email "") eqn:He; [discriminate|].
  destruct (String.eqb password "") eqn:Hp; [discriminate|].
  cbn [orb]. rewrite findOne_total; cbn [bind].
  destruct (List.find _ repo) as [stored|] eqn:Hfind; [|discriminate].
  destruct (User.password stored) as [h|] eqn:Hh; cbn [bcryptCompare bind];
    [|discriminate].
  destruct (bcrypt_compare password h) eqn:Hcmp; cbn [negb]; [|discriminate].
  intros H. injection H as <-.
  exists email, password, stored, h.
  apply String.eqb_neq in He, Hp. repeat split; assumption.
Qed.

(** X9. Over a repository whose users all have a hash, [login] is answered
    with 200, 400 or 401 only, and every refusal of the credentials throws
    the same error, whether the email is unknown or the password wrong. *)
Theorem login_refusals_alike :
  forall (repo : UserRepository.t) (now : Z) (creds : Credentials.t),
    allHashed repo ->
    (httpStatus (login repo now creds) = 200
     \/ httpStatus (login repo now creds) = 400
     \/ httpStatus (login repo now creds) = 401)
    /\ (forall e, login repo now creds = Throw e ->
          e = HttpErrors.BadRequest "Missing Email or Password"
          \/ e = HttpErrors.Unauthorized "Invalid credentials").
Proof.
  intros repo now creds Hhashed.
  destruct (falsyStr (Credentials.email creds)
            || falsyStr (Credentials.password creds)) eqn:Hmissing.
  - rewrite (login_missing _ _ _ Hmissing). split; [now right; left|].
    intros e H. injection H as <-. now left.
  - destruct creds as [[email|] [password|]]; cbn in Hmissing;
      rewrite ?orb_true_r in Hmissing; try discriminate.
    apply orb_false_iff in Hmissing. destruct Hmissing as [He Hp].
    apply String.eqb_neq in He, Hp.
    rewrite (login_present repo now email password He Hp).
    destruct (List.find (UserRepository.byEmail email) repo) as [stored|]
      eqn:Hfind.
    + apply find_some in Hfind. destruct Hfind as [Hin _].
      unfold allHashed in Hhashed. rewrite Forall_forall in Hhashed.
      specialize (Hhashed stored Hin).
      destruct (User.password stored) as [h|]; [|now elim Hhashed].
      cbn [bcryptCompare bind].
      destruct (bcrypt_compare password h); cbn [negb].
      * split; [now left | discriminate].
      * split; [now right; right|]. intros e H. injection H as <-. now right.
    + split; [now right; right|]. intros e H. injection H as <-. now right.
Qed.

Lemma create_stores repo u :
  exists stored,
    UserRepository.create repo u = (Return stored, (repo ++ [stored])%list)
    /\ User.email stored = User.email u
    /\ User.password stored = User.password u.
Proof.
  unfold UserRepository.create. destruct u as [[i|] un em pw ph pu]; cbn;
    eexists; repeat split.
Qed.

Lemma createUserAcross_fresh salt user seen current plain :
  List.find (UserRepository.byEmail (User.email user)) seen = None ->
  User.password user = Some plain -> plain <> "" ->
  createUserAcross salt user seen current
  = UserRepository.create current
      (User.setPassword user (Some (bcrypt_hash plain salt))).
Proof.
  intros Hfresh Hplain Hne. unfold createUserAcross, UserRepository.find.
  apply find_filter_none in Hfresh. rewrite Hfresh, Hplain.
  apply String.eqb_neq in Hne. cbn [falsyStr List.length Nat.leb].
  now rewrite Hne.
Qed.

Lemma createUserAcross_writes salt user seen current :
  snd (createUserAcross salt user seen current) = current
  \/ exists stored,
       snd (createUserAcross salt user seen current)
       = (current ++ [stored])%list
       /\ User.password stored <> None.
Proof.
  unfold createUserAcross, UserRepository.find.
  destruct (1 <=? _)%nat; [now left|].
  destruct (falsyStr (User.password user)); [now left|].
  destruct (User.password user) as [plain|]; [|now left].
  right.
  destruct (create_stores current
              (User.setPassword user (Some (bcrypt_hash plain salt))))
    as [stored [-> [_ Hpw]]].
  exists stored. split; [reflexivity|]. rewrite Hpw. discriminate.
Qed.

(** X10. [createUser] reads the repository once and writes to it once,
    with awaits in between.  Whatever is written to the repository between
    the two, every stored user still has a hash afterwards.  Emails stay
    unique when nothing is written in between; but two signups with the
    same fresh email whose lookups both come before the first write are
    both answered with 200 and both stored, after which two stored users
    share an email. *)
Theorem createUser_check_then_write :
  forall (salt : string) (user : User.t) (current : UserRepository.t),
    createUser salt user current = createUserAcross salt user current current
    /\ (forall seen,
           allHashed current ->
           allHashed (snd (createUserAcross salt user seen current)))
    /\ (uniqueEmails current ->
        uniqueEmails (snd (createUserAcross salt user current current)))
    /\ (forall salt' user' plain plain',
           List.find (UserRepository.byEmail (User.email user)) current
           = None ->
           User.email user' = User.email user ->
           User.password user = Some plain -> plain <> "" ->
           User.password user' = Some plain' -> plain' <> "" ->
           let first := createUserAcross salt user current current in
           let second := createUserAcross salt' user' current (snd first) in
           httpStatus (fst first) = 200
           /\ httpStatus (fst second) = 200
           /\ ~ uniqueEmails (snd second)).
Proof.
  intros salt user current.
  assert (Hsame : createUser salt user current
                  = createUserAcross salt user current current)
    by reflexivity.
  split; [exact Hsame|]. split; [|split].
  - intros seen Hhashed.
    destruct (createUserAcross_writes salt user seen current)
      as [-> | [stored [-> Hpw]]]; [exact Hhashed|].
    unfold allHashed. apply Forall_app. split; [exact Hhashed|].
    constructor; [exact Hpw | constructor].
  - intros Hunique. rewrite <- Hsame.
    destruct (createUser_writes salt user current) as [-> | [created Hcreate]];
      [exact Hunique|].
    rewrite Hcreate. cbn [snd]. apply createUser_returns in Hcreate.
    destruct Hcreate as [Hfresh [plain [_ [_ [_ [Hemail _]]]]]].
    unfold uniqueEmails. rewrite map_app. apply NoDup_app.
    + exact Hunique.
    + cbn. constructor; [intros [] | constructor].
    + intros a Hin [<- | []]. rewrite Hemail in Hin.
      now apply (find_byEmail_none _ _ Hfresh).
  - intros salt' user' plain plain' Hfresh Hmail Hplain Hne Hplain' Hne'
      first second. subst second first.
    rewrite (createUserAcross_fresh salt user current current plain)
      by assumption.
    destruct (create_stores current
                (User.setPassword user (Some (bcrypt_hash plain salt))))
      as [stored [-> [Hemail _]]].
    cbn [fst snd].
    rewrite (createUserAcross_fresh salt' user' current _ plain')
      by (try assumption; now rewrite Hmail).
    destruct (create_stores (current ++ [stored])%list
                (User.setPassword user' (Some (bcrypt_hash plain' salt'))))
      as [stored' [-> [Hemail' _]]].
    cbn [fst snd]. split; [reflexivity|]. split; [reflexivity|].
    unfold uniqueEmails. rewrite !map_app. cbn [List.map].
    rewrite <- app_assoc. intros Hnodup.
    apply NoDup_app_remove_l in Hnodup. cbn in Hnodup.
    inversion Hnodup as [|? ? Hnotin _]. apply Hnotin. left.
    rewrite Hemail, Hemail'. cbn [User.setPassword User.email].
    now rewrite Hmail.
Qed.

(** X11. After a signup has succeeded, every further signup with the same
    email is refused with 400 and stores nothing. *)
Theorem createUser_same_email_again :
  forall (salt salt' : string) (user user' created : User.t)
         (repo repo' : UserRepository.t),
    createUser salt user repo = (Return created, repo') ->
    User.email user' = User.email user ->
    createUser salt' user' repo'
    = (Throw (HttpErrors.BadRequest "Email already exist."), repo').
Proof.
  intros salt salt' user user' created repo repo' Hcreate Hsame.
  apply createUser_returns in Hcreate.
  destruct Hcreate as [_ [plain [_ [_ [-> [Hemail _]]]]]].
  apply createUser_registered. intros Hnone.
  assert (Hin : In created (repo ++ [created])%list)
    by (apply in_or_app; right; now left).
  pose proof (find_none _ _ Hnone created Hin) as Hfalse.
  unfold UserRepository.byEmail in Hfalse.
  rewrite Hemail, Hsame, String.eqb_refl in Hfalse. discriminate.
Qed.


(** *** From signup to the authenticated request *)



Lemma value_jwt md repo now :
  strategy md = JWT_STRATEGY_NAME ->
  value (mkProvider (Some md) repo) now
  = Some (StrategyAdapter
            (JwtStrategy jwtOptions (verifyToken (mkProvider (Some md) repo))
               now)
            JWT_STRATEGY_NAME).
Proof.
  intros Hname. unfold value; cbn [metadata].
  apply String.eqb_eq in Hname. now rewrite Hname.
Qed.

Lemma action_authenticates md repo now request ctx token payload stored :
  strategy md = JWT_STRATEGY_NAME ->
  type md <> PERMIT_ALL ->
  jwtFromRequest jwtOptions request = Some token ->
  verify token JWT_SECRET now = Claim payload ->
  List.find (UserRepository.byEmail (payload_email payload)) repo
  = Some stored ->
  action (mkAction (value (mkProvider (Some md) repo) now) (Some md))
    request ctx
  = (Return (userInfo stored),
     setCurrentUser (userInfo stored)
       (called (Authenticate request)
          (called GetStrategy (called GetMetadata ctx)))).
Proof.
  intros Hname Htype Htok Hparse Hfind.
  rewrite (value_jwt md repo now Hname), action_with_strategy
    by (destruct (type md); try reflexivity; now elim Htype).
  cbn [authenticate StrategyAdapter]. unfold JwtStrategy. rewrite Htok.
  pose proof (fromExtractors_not_empty _ _ _ Htok) as Hne.
  apply String.eqb_neq in Hne. rewrite Hne.
  unfold checkToken. cbn [secretOrKey jwtOptions]. rewrite Hparse.
  rewrite (verifyToken_found _ payload stored) by exact Hfind.
  reflexivity.
Qed.

Lemma action_refuses md repo now request ctx :
  strategy md = JWT_STRATEGY_NAME ->
  type md <> PERMIT_ALL ->
  (jwtFromRequest jwtOptions request = None
   \/ exists token,
        jwtFromRequest jwtOptions request = Some token
        /\ (verify token JWT_SECRET now = Expired
            \/ verify token JWT_SECRET now = Invalid)) ->
  action (mkAction (value (mkProvider (Some md) repo) now) (Some md))
    request ctx
  = (Throw (HttpErrors.Unauthorized "Unauthorized"),
     called (Authenticate request)
       (called GetStrategy (called GetMetadata ctx))).
Proof.
  intros Hname Htype Hbad.
  rewrite (value_jwt md repo now Hname), action_with_strategy
    by (destruct (type md); try reflexivity; now elim Htype).
  cbn [authenticate StrategyAdapter]. unfold JwtStrategy.
  destruct Hbad as [-> | [token [-> Hparse]]]; [reflexivity|].
  destruct (String.eqb token ""); [reflexivity|].
  unfold checkToken. cbn [secretOrKey jwtOptions].
  destruct Hparse as [-> | ->]; reflexivity.
Qed.


(** X13. Under metadata that names the [jwt] strategy and any type but
    [PERMIT_ALL], be it [DENY_ALL] or a role requirement with any roles, a
    request whose token parses to a claim whose email has a stored user
    passes the action: the action returns that user's identity and binds
    it as the current user.  The declared type and roles are never
    consulted. *)
Theorem action_never_checks_roles :
  forall (md : MyAuthenticationMetadata) (repo : UserRepository.t) (now : Z)
         (request : Request) (ctx : AuthContext) (token : string)
         (payload : TokenPayload) (stored : User.t),
    strategy md = JWT_STRATEGY_NAME ->
    type md <> PERMIT_ALL ->
    jwtFromRequest jwtOptions request = Some token ->
    verify token JWT_SECRET now = Claim payload ->
    List.find (UserRepository.byEmail (payload_email payload)) repo
    = Some stored ->
    let r := action (mkAction (value (mkProvider (Some md) repo) now)
                       (Some md)) request ctx in
    fst r = Return (userInfo stored)
    /\ currentUser (snd r) = Some (userInfo stored).
Proof.
  intros md repo now request ctx token payload stored Hname Htype Htok
    Hparse Hfind r. subst r.
  rewrite (action_authenticates md repo now request ctx token payload stored)
    by assumption.
  split; reflexivity.
Qed.


(** X15. Which endpoints authenticate.  The metadata is there for
    [whoAmI], [create] and [updateById] only.  For every other endpoint the
    action returns [undefined] and binds nobody, whatever the request
    carries; for those three, a request without a token, or with one that
    is expired or invalid, is refused with 401 and binds nobody. *)
Theorem endpoints_that_authenticate :
  forall (e : Endpoint) (repo : UserRepository.t) (now : Z)
         (request : Request) (ctx : AuthContext),
    let md := methodMetadata e in
    let r := action (mkAction (value (mkProvider md repo) now) md)
               request ctx in
    (md <> None <-> e = UserWhoAmI \/ e = ProductCreate \/ e = ProductUpdateById)
    /\ (md = None ->
        fst r = Return VUndefined /\ currentUser (snd r) = currentUser ctx)
    /\ (md <> None ->
        (jwtFromRequest jwtOptions request = None
         \/ exists token,
              jwtFromRequest jwtOptions request = Some token
              /\ (verify token JWT_SECRET now = Expired
                  \/ verify token JWT_SECRET now = Invalid)) ->
        httpStatus (fst r) = 401 /\ currentUser (snd r) = currentUser ctx).
Proof.
  intros e repo now request ctx md r. subst r md.
  split; [|split].
  - destruct e; cbn; split; intros H; try discriminate; try (now elim H);
      try tauto;
      destruct H as [H | [H | H]]; discriminate.
  - destruct e; cbn [methodMetadata]; intros H; try discriminate;
      split; reflexivity.
  - destruct e; cbn [methodMetadata]; intros H Hbad; try (now elim H);
      rewrite (action_refuses (secured None None None None) repo now request
                 ctx eq_refl) by (discriminate || exact Hbad);
      split; reflexivity.
Qed.

(** *** More on the products *)

Lemma findById_find repo id p :
  ProductRepository.findById repo id = Return p
  <-> List.find (ProductRepository.byId id) repo = Some p.
Proof.
  unfold ProductRepository.findById.
  destruct (List.find _ repo); split; intros H; try discriminate;
    now injection H as ->.
Qed.

Lemma looseNeq_false (a b : option Z) :
  looseNeq a b = false <-> exists n, a = Some n /\ b = Some n.
Proof.
  destruct a as [x|], b as [y|]; cbn; split; try discriminate;
    try (intros [n [H1 H2]]; discriminate).
  - intros H. apply negb_false_iff, Z.eqb_eq in H. subst. now exists y.
  - intros [n [H1 H2]]. injection H1 as ->. injection H2 as ->.
    apply negb_false_iff, Z.eqb_refl.
Qed.

Lemma nextId_above repo p i :
  In p repo -> Product.id p = Some i -> i < ProductWrites.nextId repo.
Proof.
  unfold ProductWrites.nextId.
  induction repo as [|a repo IH]; [intros []|].
  cbn [fold_right]. intros [-> | Hin] Hi.
  - rewrite Hi. lia.
  - specialize (IH Hin Hi). destruct (Product.id a); lia.
Qed.

Lemma find_nextId repo :
  List.find (ProductRepository.byId (ProductWrites.nextId repo)) repo = None.
Proof.
  destruct (List.find _ repo) as [p|] eqn:Hfind; [|reflexivity].
  apply find_some in Hfind. destruct Hfind as [Hin Hid].
  unfold ProductRepository.byId in Hid.
  destruct (Product.id p) as [i|] eqn:Hi; [|discriminate].
  apply Z.eqb_eq in Hid. pose proof (nextId_above repo p i Hin Hi). lia.
Qed.

Lemma find_replaced id (q : Product.t) (f : Product.t -> Product.t) repo old :
  (forall p, ProductRepository.byId id p = true ->
             ProductRepository.byId id (f p) = true) ->
  List.find (ProductRepository.byId id) repo = Some old ->
  List.find (ProductRepository.byId id)
    (List.map (fun p => if ProductRepository.byId id p then f p else p) repo)
  = Some (f old).
Proof.
  intros Hf. induction repo as [|a repo IH]; cbn; [discriminate|].
  destruct (ProductRepository.byId id a) eqn:Ha.
  - intros H. injection H as <-. now rewrite (Hf a Ha).
  - rewrite Ha. exact IH.
Qed.

Lemma updateById_owner profile id name price repo old sid n :
  List.find (ProductRepository.byId id) repo = Some old ->
  getProp profile SecurityId = Return sid ->
  Product.user_id old = Some n -> parseInt sid = Some n ->
  updateById profile id name price repo
  = (Return tt,
     List.map (fun p => if ProductRepository.byId id p
                        then ProductRepository.patch name price p else p)
       repo).
Proof.
  intros Hfind Hsid Hold Hn. unfold updateById.
  rewrite (proj2 (findById_find repo id old) Hfind), Hsid, Hold, Hn.
  cbn [looseNeq]. rewrite Z.eqb_refl. cbn [negb].
  unfold ProductRepository.updateById. now rewrite Hfind.
Qed.

(** X16. [create] stores the product under the caller's subject id,
    whatever [user_id] the body carries, with the name, image and price of
    the body, and under an id the product is then found by.  The caller
    may then update it, and a caller with another subject id may not. *)
Theorem create_stamps_the_caller :
  forall (profile : JsValue) (product : Product.t)
         (repo : ProductRepository.t) (sid : JsValue),
    getProp profile SecurityId = Return sid ->
    exists created i,
      create profile product repo = (Return created, (repo ++ [created])%list)
      /\ Product.user_id created = parseInt sid
      /\ Product.name created = Product.name product
      /\ Product.image created = Product.image product
      /\ Product.price created = Product.price product
      /\ Product.id created = Some i
      /\ findById i (repo ++ [created])%list = Return created
      /\ (forall name price,
             parseInt sid <> None ->
             fst (updateById profile i name price (repo ++ [created])%list)
             = Return tt)
      /\ (forall other sid' name price,
             getProp other SecurityId = Return sid' ->
             parseInt sid' <> parseInt sid ->
             updateById other i name price (repo ++ [created])%list
             = (Throw (HttpErrors.Unauthorized "Invalid authorization"),
                (repo ++ [created])%list)).
Proof.
  intros profile product repo sid Hsid.
  set (created := Product.mk (Some (ProductWrites.nextId repo))
                    (Product.name product) (Product.image product)
                    (Product.price product) (parseInt sid)).
  assert (Hfind : List.find (ProductRepository.byId (ProductWrites.nextId repo))
                    (repo ++ [created])%list = Some created).
  { rewrite (find_app_none _ _ _ (find_nextId repo)). cbn.
    now rewrite Z.eqb_refl. }
  exists created, (ProductWrites.nextId repo).
  split; [unfold create; now rewrite Hsid|].
  repeat split.
  - now apply findById_find.
  - intros name price Hnum.
    destruct (parseInt sid) as [n|] eqn:Hn; [|now elim Hnum].
    rewrite (updateById_owner profile _ name price _ created sid n);
      try assumption; try reflexivity.
  - intros other sid' name price Hsid' Hdiff. unfold updateById.
    rewrite (proj2 (findById_find _ _ created) Hfind), Hsid'.
    rewrite looseNeq_of_neq; [reflexivity|].
    subst created. cbn. congruence.
Qed.

Lemma map_patch_keeps {B : Type} (proj : Product.t -> B) id name price repo :
  (forall p, proj (ProductRepository.patch name price p) = proj p) ->
  List.map proj
    (List.map (fun p => if ProductRepository.byId id p
                        then ProductRepository.patch name price p else p)
       repo)
  = List.map proj repo.
Proof.
  intros Hproj. rewrite map_map. apply map_ext. intros p.
  destruct (ProductRepository.byId id p); [apply Hproj | reflexivity].
Qed.

Lemma updateById_writes profile id name price repo :
  snd (updateById profile id name price repo) = repo
  \/ snd (updateById profile id name price repo)
     = List.map (fun p => if ProductRepository.byId id p
                          then ProductRepository.patch name price p else p)
         repo.
Proof.
  unfold updateById.
  destruct (ProductRepository.findById repo id); [|now left].
  destruct (getProp profile SecurityId); [|now left].
  destruct (looseNeq _ _); [now left|].
  unfold ProductRepository.updateById.
  destruct (List.find _ repo); [now right | now left].
Qed.

(** X17. Whatever the caller, the id and the body, [updateById] leaves the
    ids, the owners and the images of all products as they were, in the
    same order, and every product with another id untouched: a PATCH can
    neither move a product to another owner nor add or remove one. *)
Theorem updateById_keeps_owners :
  forall (profile : JsValue) (id : Z) (name : option string)
         (price : option Z) (repo : ProductRepository.t),
    let repo' := snd (updateById profile id name price repo) in
    List.map Product.id repo' = List.map Product.id repo
    /\ List.map Product.user_id repo' = List.map Product.user_id repo
    /\ List.map Product.image repo' = List.map Product.image repo
    /\ List.filter (fun p => negb (ProductRepository.byId id p)) repo'
       = List.filter (fun p => negb (ProductRepository.byId id p)) repo.
Proof.
  intros profile id name price repo repo'. subst repo'.
  destruct (updateById_writes profile id name price repo) as [-> | ->];
    [repeat split|].
  split; [|split; [|split]]; try (apply map_patch_keeps; reflexivity).
  induction repo as [|a repo IH]; [reflexivity|].
  cbn [List.map List.filter].
  destruct (ProductRepository.byId id a) eqn:Ha.
  - assert (Hp : ProductRepository.byId id
                   (ProductRepository.patch name price a) = true)
      by exact Ha.
    rewrite Hp. cbn [negb]. exact IH.
  - rewrite Ha. cbn [negb]. now rewrite IH.
Qed.

(** X18. When [deleteById] returns, the caller's subject id is a number
    and is the owner of the product found; afterwards the products are the
    former ones with another id, the id finds nothing, and a second delete
    of it is answered with 404. *)
Theorem deleteById_removes :
  forall (profile : JsValue) (id : Z) (repo repo' : ProductRepository.t),
    deleteById profile id repo = (Return tt, repo') ->
    (exists old sid n,
        findById id repo = Return old
        /\ getProp profile SecurityId = Return sid
        /\ Product.user_id old = Some n /\ parseInt sid = Some n)
    /\ (forall p, In p repo' <-> In p repo /\ Product.id p <> Some id)
    /\ findById id repo' = Throw ProductRepository.EntityNotFound
    /\ deleteById profile id repo'
       = (Throw ProductRepository.EntityNotFound, repo').
Proof.
  intros profile id repo repo'. unfold deleteById, findById.
  destruct (ProductRepository.findById repo id) as [old|e] eqn:Hfind;
    [|discriminate].
  destruct (getProp profile SecurityId) as [sid|e] eqn:Hsid; [|discriminate].
  destruct (looseNeq (Product.user_id old) (parseInt sid)) eqn:Hneq;
    [discriminate|].
  unfold ProductRepository.deleteById. apply findById_find in Hfind.
  rewrite Hfind. intros H. injection H as <-.
  assert (Hgone : List.find (ProductRepository.byId id)
                    (List.filter
                       (fun p => negb (ProductRepository.byId id p)) repo)
                  = None).
  { destruct (List.find _ (List.filter _ repo)) as [p|] eqn:Hp;
      [|reflexivity].
    apply find_some in Hp. destruct Hp as [Hin Hid].
    apply filter_In in Hin. destruct Hin as [_ Hnot].
    rewrite Hid in Hnot. discriminate. }
  split; [|split; [|split]].
  - apply looseNeq_false in Hneq. destruct Hneq as [n [Hold Hn]].
    exists old, sid, n. repeat split; assumption.
  - intros p. rewrite filter_In. unfold ProductRepository.byId.
    destruct (Product.id p) as [i|]; cbn.
    + destruct (Z.eqb_spec i id) as [-> | Hne]; cbn.
      * split; [intros [_ H]; discriminate | intros [_ H]; now elim H].
      * split; intros [Hin _]; (split; [exact Hin|]);
          [congruence | reflexivity].
    + split; intros [Hin _]; (split; [exact Hin|]);
        [discriminate | reflexivity].
  - unfold ProductRepository.findById. now rewrite Hgone.
  - unfold ProductRepository.findById. now rewrite Hgone.
Qed.

(** X19. On an id no product has, [updateById] and [deleteById] reject
    with the repository's 404 and write nothing, whoever calls: the lookup
    comes before the ownership check, so the two answers 404 and 401 tell
    any caller whether a product of that id exists. *)
Theorem missing_product_is_404 :
  forall (profile : JsValue) (id : Z) (name : option string)
         (price : option Z) (repo : ProductRepository.t),
    List.find (ProductRepository.byId id) repo = None ->
    updateById profile id name price repo
    = (Throw ProductRepository.EntityNotFound, repo)
    /\ deleteById profile id repo
       = (Throw ProductRepository.EntityNotFound, repo)
    /\ httpStatus (fst (updateById profile id name price repo)) = 404
    /\ httpStatus (fst (deleteById profile id repo)) = 404.
Proof.
  intros profile id name price repo Hnone.
  unfold updateById, deleteById, ProductRepository.findById.
  rewrite Hnone. repeat split.
Qed.

(** X20. A product whose [user_id] is not a number can be updated or
    deleted by nobody, and a caller whose subject id is not a number can
    update or delete nothing: both are refused with [Unauthorized]. *)
Theorem not_a_number_owns_nothing :
  forall (profile : JsValue) (id : Z) (name : option string)
         (price : option Z) (repo : ProductRepository.t)
         (old : Product.t) (sid : JsValue),
    findById id repo = Return old ->
    getProp profile SecurityId = Return sid ->
    Product.user_id old = None \/ parseInt sid = None ->
    updateById profile id name price repo
    = (Throw (HttpErrors.Unauthorized "Invalid authorization"), repo)
    /\ deleteById profile id repo
       = (Throw (HttpErrors.Unauthorized "Invalid authorization"), repo).
Proof.
  intros profile id name price repo old sid Hfind Hsid Hnan.
  unfold findById in Hfind. unfold updateById, deleteById.
  rewrite Hfind, Hsid.
  assert (Hneq : looseNeq (Product.user_id old) (parseInt sid) = true).
  { destruct Hnan as [-> | ->]; [reflexivity|].
    destruct (Product.user_id old); reflexivity. }
  rewrite Hneq. split; reflexivity.
Qed.

(** X21. [replaceById] carries no metadata and takes no caller: it
    overwrites the product found, [user_id] included, so that afterwards
    the product is owned by whoever the body names, who may then update
    it. *)
Theorem replaceById_moves_ownership :
  forall (id : Z) (product old : Product.t) (repo : ProductRepository.t),
    findById id repo = Return old ->
    methodMetadata ProductReplaceById = None
    /\ exists repo',
         replaceById id product repo = (Return tt, repo')
         /\ findById id repo'
            = Return (ProductWrites.withId product (Some id))
         /\ List.map Product.id repo' = List.map Product.id repo
         /\ (forall profile sid n name price,
                getProp profile SecurityId = Return sid ->
                parseInt sid = Some n ->
                Product.user_id product = Some n ->
                fst (updateById profile id name price repo') = Return tt).
Proof.
  intros id product old repo Hfind. split; [reflexivity|].
  unfold findById in *. apply findById_find in Hfind.
  unfold replaceById, ProductWrites.replaceById. rewrite Hfind.
  eexists. split; [reflexivity|].
  assert (Hnew : List.find (ProductRepository.byId id)
                   (List.map
                      (fun p => if ProductRepository.byId id p
                                then ProductWrites.withId product (Some id)
                                else p) repo)
                 = Some (ProductWrites.withId product (Some id))).
  { apply (find_replaced id product
             (fun _ => ProductWrites.withId product (Some id)) repo old);
      [|exact Hfind].
    intros p _. cbn. apply Z.eqb_refl. }
  split; [now apply findById_find|]. split.
  - rewrite map_map. apply map_ext_in. intros p Hin.
    destruct (ProductRepository.byId id p) eqn:Hp; [|reflexivity].
    unfold ProductRepository.byId in Hp.
    destruct (Product.id p) as [i|]; [|discriminate].
    apply Z.eqb_eq in Hp. now subst.
  - intros profile sid n name price Hsid Hn Howner.
    rewrite (updateById_owner profile id name price _
               (ProductWrites.withId product (Some id)) sid n);
      try assumption; reflexivity.
Qed.

End Backend.

(** ** The statements on sample requests *)

Lemma verifyToken_ignores_metadata_sample :
  verifyToken
    (mkProvider (Some (mkMetadata DENY_ALL ["admin"] "jwt" None)) Sample.users)
    Sample.claim
  = verifyToken (mkProvider None Sample.users) Sample.claim
  /\ succeeded
       (verifyToken
          (mkProvider (Some (mkMetadata DENY_ALL ["admin"] "jwt" None))
             Sample.users)
          Sample.claim) = true.
Proof.
  destruct (verifyToken_ignores_metadata Reference.decode
              (Some (mkMetadata DENY_ALL ["admin"] "jwt" None)) None
              Sample.users Sample.claim) as [Heq [Hiff _]].
  split; [exact Heq|].
  apply Hiff. exists Sample.alice. reflexivity.
Defined.

(** C2, as stated, fails: under an empty required list an identity that is
    present, and holds roles, is refused. *)
Lemma verifyRoles_HAS_ROLES_empty_required :
  verifyRoles (mkProvider (Some (mkMetadata HAS_ROLES [] "jwt" None)) [])
    (identityWithRoles ["A"])
  = Throw InvalidAuthorization
  /\ incl [] ["A"]
  /\ verifyRoles (mkProvider (Some (mkMetadata HAS_ROLES [] "jwt" None)) [])
       (identityWithRoles ["A"])
     <> Return tt.
Proof.
  split; [reflexivity|]. split; [intros x []|]. discriminate.
Qed.

Lemma verifyRoles_HAS_ROLES_sample :
  verifyRoles (mkProvider (Some (mkMetadata HAS_ROLES ["A"; "B"] "jwt" None)) [])
    (identityWithRoles ["A"; "B"; "C"]) = Return tt
  /\ verifyRoles
       (mkProvider (Some (mkMetadata HAS_ROLES ["A"; "B"] "jwt" None)) [])
       (identityWithRoles ["A"]) <> Return tt.
Proof.
  destruct (verifyRoles_HAS_ROLES [] ["A"; "B"] "jwt" None) as [_ [Hheld _]].
  split.
  - apply Hheld. split; [discriminate|].
    intros role [<- | [<- | []]]; cbn; auto.
  - intros Hallow. apply Hheld in Hallow. destruct Hallow as [_ Hincl].
    destruct (Hincl "B" (or_intror (or_introl eq_refl))) as [H | []].
    discriminate.
Defined.

Example verifyRoles_HAS_ROLES_too_few :
  verifyRoles (mkProvider (Some (mkMetadata HAS_ROLES ["A"; "B"] "jwt" None)) [])
    (identityWithRoles ["A"]) = Throw InvalidAuthorization.
Proof. reflexivity. Qed.

Lemma permitAll_skips_authentication_sample :
  action
    (mkAction (value Reference.decode
                 (mkProvider (Some (mkMetadata PERMIT_ALL [] "jwt" None))
                    Sample.users) 2000)
       (Some (mkMetadata PERMIT_ALL [] "jwt" None)))
    Sample.request Sample.emptyContext
  = (Return VUndefined, mkContext None [GetMetadata]).
Proof.
  destruct (permitAll_skips_authentication Sample.users [] "jwt" None)
    as [_ Haction].
  apply Haction.
Defined.

Lemma login_responses_sample :
  login Reference.encode Reference.compare Sample.users 1000
    (Credentials.mk (Some "a@b.com") (Some "12345678"))
  = Return Sample.token
  /\ httpStatus
       (login Reference.encode Reference.compare Sample.users 1000
          (Credentials.mk (Some "a@b.com") None)) = 400.
Proof.
  destruct (login_responses Reference.encode Reference.compare Sample.users
              1000 (Credentials.mk (Some "a@b.com") (Some "12345678")))
    as [_ Hpresent].
  destruct (login_responses Reference.encode Reference.compare Sample.users
              1000 (Credentials.mk (Some "a@b.com") None))
    as [Hmissing _].
  split.
  - specialize (Hpresent "a@b.com" "12345678" eq_refl).
    assert (H1 : "a@b.com" <> "") by discriminate.
    assert (H2 : "12345678" <> "") by discriminate.
    specialize (Hpresent H1 H2 (Reference.hash "12345678" "salt") eq_refl).
    exact (proj1 Hpresent).
  - apply Hmissing. right. right. left. reflexivity.
Defined.





Lemma whoAmI_returns_subject_id_sample :
  exists ctx',
    action
      (mkAction
         (value Reference.decode
            (mkProvider (methodMetadata UserWhoAmI) Sample.users) 2000)
         (methodMetadata UserWhoAmI))
      Sample.request Sample.emptyContext
    = (Return (userInfo Sample.alice), ctx')
    /\ currentUser ctx' = Some (userInfo Sample.alice)
    /\ whoAmI (userInfo Sample.alice) = Return (VNum 1).
Proof.
  destruct (whoAmI_returns_subject_id Reference.decode Sample.users 2000)
    as [_ [Hforward _]].
  apply (Hforward Sample.request Sample.emptyContext Sample.token
           Sample.claim Sample.alice); reflexivity.
Defined.

Lemma userInfo_omits_password_sample :
  getProp (userInfo Sample.alice) (Named "password") = Return VUndefined
  /\ userInfo (User.setPassword Sample.alice (Some "another hash"))
     = userInfo Sample.alice.
Proof.
  destruct (userInfo_omits_password Sample.alice)
    as [_ [_ [Hget [_ [_ [_ [_ [_ [_ [Hsame _]]]]]]]]]].
  split; [exact Hget | apply Hsame].
Defined.

Lemma token_roundtrip_until_expiry_sample :
  login Reference.encode Reference.compare Sample.users 1000
    (Credentials.mk (Some "a@b.com") (Some "12345678"))
  = Return Sample.token
  /\ verify Reference.decode Sample.token JWT_SECRET 2000
     = Claim Sample.claim
  /\ checkToken Reference.decode jwtOptions
       (verifyToken (mkProvider None Sample.users)) 2000 Sample.token
     = Success (userInfo Sample.alice)
  /\ verify Reference.decode Sample.token JWT_SECRET 4601 = Expired
  /\ checkToken Reference.decode jwtOptions
       (verifyToken (mkProvider None Sample.users)) 4601 Sample.token
     = Fail
  /\ verify Reference.decode
       (sign Reference.encode "x@y.z" "another secret" 10 50)
       "another secret" 59
     = Claim (mkPayload "x@y.z" 50 60).
Proof.
  destruct (token_roundtrip_until_expiry Reference.encode Reference.decode
              Reference.compare) as [Hcodec [Hlogin _]].
  destruct (Hlogin Sample.users 1000 "a@b.com" "12345678" Sample.alice
              (Reference.hash "12345678" "salt"))
    as [token [Hret [Htoken [Hbefore Hafter]]]];
    try reflexivity; try discriminate.
  subst token.
  split; [exact Hret|].
  destruct (Hbefore 2000 None) as [Hparse Hcheck]; [lia|].
  destruct (Hafter 4601 (verifyToken (mkProvider None Sample.users)))
    as [Hexpired Hfail]; [lia|].
  split; [exact Hparse|]. split; [exact Hcheck|].
  split; [exact Hexpired|]. split; [exact Hfail|].
  refine (proj1 (proj1 (Hcodec "x@y.z" "another secret" 10 50 59 _) _));
    [reflexivity | lia].
Defined.

Lemma header_token_first_sample :
  fromUrlQueryParameter "access_token" Sample.request = Some "other"
  /\ jwtFromRequest jwtOptions Sample.request = Some Sample.token.
Proof.
  split; [reflexivity|].
  refine (proj1 (proj1 (header_token_first Reference.decode Sample.request
                          Sample.token "other" _ _) _));
    [reflexivity | reflexivity | discriminate].
Defined.

Lemma ownership_check_guards_write_sample :
  updateById Reference.parseInt Sample.stranger 7 (Some "pencil") None
    Sample.products
  = (Throw (HttpErrors.Unauthorized "Invalid authorization"), Sample.products)
  /\ deleteById Reference.parseInt Sample.stranger 7 Sample.products
     = (Throw (HttpErrors.Unauthorized "Invalid authorization"),
        Sample.products).
Proof.
  destruct (ownership_check_guards_write Reference.parseInt Sample.stranger 7
              (Some "pencil") None Sample.products Sample.pen (VNum 2))
    as [Hupdate [Hdelete _]];
    [reflexivity | reflexivity | discriminate |].
  split; assumption.
Defined.

(** The owner's update goes through. *)
Example updateById_by_owner :
  updateById Reference.parseInt (userInfo Sample.alice) 7 (Some "pencil") None
    Sample.products
  = (Return tt, [Product.mk (Some 7) "pencil" None 3 (Some 1)]).
Proof. reflexivity. Qed.

(** ** The further statements on sample requests *)

Lemma verifyRoles_all_implies_any_sample :
  verifyRoles
    (mkProvider (Some (mkMetadata HAS_ANY_ROLE ["A"; "B"] "jwt" None)) [])
    (identityWithRoles ["A"; "B"; "C"]) = Return tt.
Proof.
  apply (verifyRoles_all_implies_any [] [] ["A"; "B"] "jwt" "jwt" None None).
  reflexivity.
Defined.

Lemma verifyRoles_monotone_sample :
  verifyRoles (mkProvider (Some (mkMetadata HAS_ROLES ["A"] "jwt" None)) [])
    (identityWithRoles ["A"; "B"]) = Return tt.
Proof.
  apply (verifyRoles_monotone _ ["A"] ["A"; "B"]).
  - intros role [<- | []]. now left.
  - reflexivity.
Defined.

Lemma login_issues_only_after_match_sample :
  exists email password stored h,
    Credentials.mk (Some "a@b.com") (Some "12345678")
    = Credentials.mk (Some email) (Some password)
    /\ email <> "" /\ password <> ""
    /\ List.find (UserRepository.byEmail email) Sample.users = Some stored
    /\ User.password stored = Some h
    /\ Reference.compare password h = true
    /\ Sample.token = sign Reference.encode email JWT_SECRET (60 * 60) 1000.
Proof.
  apply (login_issues_only_after_match Reference.encode Reference.compare
           Sample.users 1000 _ Sample.token).
  reflexivity.
Defined.

Lemma login_refusals_alike_sample :
  allHashed Sample.users
  /\ (httpStatus
        (login Reference.encode Reference.compare Sample.users 1000
           (Credentials.mk (Some "a@b.com") (Some "not the password"))) = 200
      \/ httpStatus
           (login Reference.encode Reference.compare Sample.users 1000
              (Credentials.mk (Some "a@b.com") (Some "not the password")))
         = 400
      \/ httpStatus
           (login Reference.encode Reference.compare Sample.users 1000
              (Credentials.mk (Some "a@b.com") (Some "not the password")))
         = 401).
Proof.
  assert (H : allHashed Sample.users)
    by (constructor; [discriminate | constructor]).
  split; [exact H|].
  exact (proj1 (login_refusals_alike Reference.encode Reference.compare
                  Sample.users 1000 _ H)).
Defined.

Lemma createUser_check_then_write_sample :
  httpStatus
    (fst (createUserAcross Reference.hash "pepper"
            (User.mk None None "bob@b.com" (Some "abcdefgh") None None)
            Sample.users
            (snd (createUserAcross Reference.hash "salt"
                    (Sample.newcomer (Some "12345678"))
                    Sample.users Sample.users)))) = 200
  /\ ~ uniqueEmails
        (snd (createUserAcross Reference.hash "pepper"
                (User.mk None None "bob@b.com" (Some "abcdefgh") None None)
                Sample.users
                (snd (createUserAcross Reference.hash "salt"
                        (Sample.newcomer (Some "12345678"))
                        Sample.users Sample.users)))).
Proof.
  destruct (createUser_check_then_write Reference.hash "salt"
              (Sample.newcomer (Some "12345678")) Sample.users)
    as [_ [_ [_ Hrace]]].
  destruct (Hrace "pepper"
              (User.mk None None "bob@b.com" (Some "abcdefgh") None None)
              "12345678" "abcdefgh")
    as [_ [Hsecond Hshared]];
    try reflexivity; try discriminate.
  split; [exact Hsecond | exact Hshared].
Defined.

Lemma createUser_same_email_again_sample :
  createUser Reference.hash "pepper"
    (User.mk None None "bob@b.com" (Some "abcdefgh") None None)
    [Sample.alice; Sample.bob]
  = (Throw (HttpErrors.BadRequest "Email already exist."),
     [Sample.alice; Sample.bob]).
Proof.
  apply (createUser_same_email_again Reference.hash "salt" "pepper"
           (Sample.newcomer (Some "12345678")) _ Sample.bob Sample.users);
    reflexivity.
Defined.


Lemma action_never_checks_roles_sample :
  fst (action
         (mkAction
            (value Reference.decode
               (mkProvider (Some Sample.denyAll) Sample.users) 2000)
            (Some Sample.denyAll))
         Sample.request Sample.emptyContext)
  = Return (userInfo Sample.alice).
Proof.
  refine (proj1 (action_never_checks_roles Reference.decode Sample.denyAll
                   Sample.users 2000 Sample.request Sample.emptyContext
                   Sample.token Sample.claim Sample.alice _ _ _ _ _));
    try reflexivity; discriminate.
Defined.


Lemma create_stamps_the_caller_sample :
  exists created,
    create Reference.parseInt Sample.stranger
      (Product.mk None "ink" None 5 (Some 1)) Sample.products
    = (Return created, (Sample.products ++ [created])%list)
    /\ Product.user_id created = Some 2.
Proof.
  destruct (create_stamps_the_caller Reference.parseInt Sample.stranger
              (Product.mk None "ink" None 5 (Some 1)) Sample.products
              (VNum 2) eq_refl)
    as [created [i [Hcreate [Howner _]]]].
  exists created. split; assumption.
Defined.

Lemma deleteById_removes_sample :
  deleteById Reference.parseInt (userInfo Sample.alice) 7 []
  = (Throw ProductRepository.EntityNotFound, []).
Proof.
  exact (proj2 (proj2 (proj2
           (deleteById_removes Reference.parseInt (userInfo Sample.alice) 7
              Sample.products [] eq_refl)))).
Defined.

Lemma missing_product_is_404_sample :
  updateById Reference.parseInt Sample.stranger 9 None None Sample.products
  = (Throw ProductRepository.EntityNotFound, Sample.products).
Proof.
  exact (proj1 (missing_product_is_404 Reference.parseInt Sample.stranger 9
                  None None Sample.products eq_refl)).
Defined.

Lemma not_a_number_owns_nothing_sample :
  updateById Reference.parseInt (userInfo Sample.alice) 8 (Some "mine") None
    [Sample.ghost]
  = (Throw (HttpErrors.Unauthorized "Invalid authorization"), [Sample.ghost]).
Proof.
  exact (proj1 (not_a_number_owns_nothing Reference.parseInt
                  (userInfo Sample.alice) 8 (Some "mine") None [Sample.ghost]
                  Sample.ghost (VNum 1) eq_refl eq_refl
                  (or_introl eq_refl))).
Defined.

Lemma replaceById_moves_ownership_sample :
  exists repo',
    replaceById 7 Sample.ink Sample.products = (Return tt, repo')
    /\ fst (updateById Reference.parseInt Sample.stranger 7 (Some "pencil")
              None repo') = Return tt.
Proof.
  destruct (replaceById_moves_ownership Reference.parseInt 7 Sample.ink
              Sample.pen Sample.products eq_refl)
    as [_ [repo' [Hreplace [_ [_ Hupdate]]]]].
  exists repo'. split; [exact Hreplace|].
  apply (Hupdate Sample.stranger (VNum 2) 2); reflexivity.
Defined.
